(** * storages/management/commands/collectstatic.py

    A shallow embedding of django-storages' [collectstatic] override, which
    decides whether a static file has to be re-published by comparing the MD5
    digest of the local file with the etag of the remote object, together
    with the properties of that decision procedure. *)

From Stdlib Require Import ZArith List String Ascii Bool Lia.
From Stdlib.Strings Require Import Byte.
From stdpp Require Import gmap strings.

Import ListNotations.
Local Open Scope string_scope.
Local Open Scope Z_scope.

(** ** [hashlib.md5]

    The digest object the command feeds the file to.  The object keeps the
    four chaining words, the bytes of the block that is not yet complete and
    the number of bytes seen; [update] absorbs its argument byte by byte and
    runs the compression function each time the block fills up (RFC 1321). *)

Module MD5.

Definition wrap32 (x : Z) : Z := x mod 2 ^ 32.

Definition not32 (x : Z) : Z := Z.lxor x 0xffffffff.

Definition rotl32 (x c : Z) : Z :=
  wrap32 (Z.lor (Z.shiftl x c) (Z.shiftr x (32 - c))).

Definition S_table : list Z :=
  [ 7; 12; 17; 22; 7; 12; 17; 22; 7; 12; 17; 22; 7; 12; 17; 22;
    5;  9; 14; 20; 5;  9; 14; 20; 5;  9; 14; 20; 5;  9; 14; 20;
    4; 11; 16; 23; 4; 11; 16; 23; 4; 11; 16; 23; 4; 11; 16; 23;
    6; 10; 15; 21; 6; 10; 15; 21; 6; 10; 15; 21; 6; 10; 15; 21 ].

Definition K_table : list Z :=
  [ 0xd76aa478; 0xe8c7b756; 0x242070db; 0xc1bdceee;
    0xf57c0faf; 0x4787c62a; 0xa8304613; 0xfd469501;
    0x698098d8; 0x8b44f7af; 0xffff5bb1; 0x895cd7be;
    0x6b901122; 0xfd987193; 0xa679438e; 0x49b40821;
    0xf61e2562; 0xc040b340; 0x265e5a51; 0xe9b6c7aa;
    0xd62f105d; 0x02441453; 0xd8a1e681; 0xe7d3fbc8;
    0x21e1cde6; 0xc33707d6; 0xf4d50d87; 0x455a14ed;
    0xa9e3e905; 0xfcefa3f8; 0x676f02d9; 0x8d2a4c8a;
    0xfffa3942; 0x8771f681; 0x6d9d6122; 0xfde5380c;
    0xa4beea44; 0x4bdecfa9; 0xf6bb4b60; 0xbebfbc70;
    0x289b7ec6; 0xeaa127fa; 0xd4ef3085; 0x04881d05;
    0xd9d4d039; 0xe6db99e5; 0x1fa27cf8; 0xc4ac5665;
    0xf4292244; 0x432aff97; 0xab9423a7; 0xfc93a039;
    0x655b59c3; 0x8f0ccc92; 0xffeff47d; 0x85845dd1;
    0x6fa87e4f; 0xfe2ce6e0; 0xa3014314; 0x4e0811a1;
    0xf7537e82; 0xbd3af235; 0x2ad7d2bb; 0xeb86d391 ].

(** The chaining value A, B, C, D. *)
Record words := Words { wA : Z; wB : Z; wC : Z; wD : Z }.

Definition iv : words :=
  Words 0x67452301 0xefcdab89 0x98badcfe 0x10325476.

Definition byte_to_Z (b : byte) : Z := Z.of_N (Byte.to_N b).

Definition byte_of_Z (z : Z) : byte :=
  match Byte.of_N (Z.to_N (z mod 256)) with
  | Some b => b
  | None => x00
  end.

(** Little-endian decoding of the sixteen 32-bit words of a block. *)
Definition le32 (bs : list byte) : Z :=
  fold_right (fun b acc => byte_to_Z b + 256 * acc) 0 (firstn 4 bs).

Fixpoint block_words (n : nat) (bs : list byte) : list Z :=
  match n with
  | O => []
  | S n' => le32 bs :: block_words n' (skipn 4 bs)
  end.

Definition step (m : list Z) (i : nat) (w : words) : words :=
  let '(Words a b c d) := w in
  let iz := Z.of_nat i in
  let '(f, g) :=
    if iz <? 16 then (Z.lor (Z.land b c) (Z.land (not32 b) d), iz)
    else if iz <? 32 then
      (Z.lor (Z.land d b) (Z.land (not32 d) c), (5 * iz + 1) mod 16)
    else if iz <? 48 then (Z.lxor (Z.lxor b c) d, (3 * iz + 5) mod 16)
    else (Z.lxor c (Z.lor b (not32 d)), (7 * iz) mod 16) in
  let f' := wrap32 (f + a + nth i K_table 0 + nth (Z.to_nat g) m 0) in
  Words d (wrap32 (b + rotl32 f' (nth i S_table 0))) b c.

Definition compress (h : words) (block : list byte) : words :=
  let m := block_words 16 block in
  let r := fold_left (fun w i => step m i w) (seq 0 64) h in
  Words (wrap32 (wA h + wA r)) (wrap32 (wB h + wB r))
        (wrap32 (wC h + wC r)) (wrap32 (wD h + wD r)).

(** The digest object. *)
Record t := Md5 { chain : words; pending : list byte; count : Z }.

(** [hashlib.md5()] *)
Definition new : t := Md5 iv [] 0.

Definition update_byte (m : t) (b : byte) : t :=
  let buf := (pending m ++ [b])%list in
  if (length buf =? 64)%nat
  then Md5 (compress (chain m) buf) [] (count m + 1)
  else Md5 (chain m) buf (count m + 1).

(** [md5.update(data)] *)
Definition update (m : t) (data : list byte) : t :=
  fold_left update_byte data m.

Definition le_bytes (n : nat) (z : Z) : list byte :=
  map (fun k => byte_of_Z (Z.shiftr z (8 * Z.of_nat k))) (seq 0 n).

Definition padding (m : t) : list byte :=
  let used := count m mod 64 in
  let zeros := if used <? 56 then 55 - used else 119 - used in
  (x80 :: repeat x00 (Z.to_nat zeros))%list.

(** [md5.digest()]: pad a copy of the object and emit A, B, C, D. *)
Definition digest (m : t) : list byte :=
  let bits := (8 * count m) mod 2 ^ 64 in
  let m' := update (update m (padding m)) (le_bytes 8 bits) in
  let h := chain m' in
  (le_bytes 4 (wA h) ++ le_bytes 4 (wB h) ++
   le_bytes 4 (wC h) ++ le_bytes 4 (wD h))%list.

Definition hex_digit (z : Z) : ascii :=
  ascii_of_N (Z.to_N (if z <? 10 then 48 + z else 87 + z)).

Fixpoint hex_of_bytes (bs : list byte) : string :=
  match bs with
  | [] => EmptyString
  | b :: bs' =>
      let z := byte_to_Z b in
      String (hex_digit (z / 16)) (String (hex_digit (z mod 16)) (hex_of_bytes bs'))
  end.

(** [md5.hexdigest()] *)
Definition hexdigest (m : t) : string := hex_of_bytes (digest m).

End MD5.

(** ** Python values and the command monad

    A call either returns a value or raises; the effects it had on the world
    up to that point stay. *)

Inductive exn :=
| AttributeError (attr : string)
| IOError (msg : string)
| ValueError (msg : string)
| RuntimeError (msg : string)
| Exception (name : string).

Inductive result (A : Type) :=
| Ok (a : A)
| Raise (e : exn).
Arguments Ok {A} a.
Arguments Raise {A} e.

(** An entry of the storage's preloaded metadata index (a boto [Key]). *)
Record Entry := { etag : option string }.

(** [self.storage]: the remote storage backend.  Attributes a backend may or
    may not have are options; calls into the backend may raise. *)
Record Storage := {
  preload_metadata : option bool;
  _normalize_name : option (string -> result string);
  _clean_name : option (string -> result string);
  location : option string;
  entries : result (gmap string Entry);
  exists_ : string -> result bool
}.

(** A local file: its bytes and, when the device is faulty, the number of
    bytes it delivers before reads start to fail. *)
Record File := { data : list byte; fault : option nat }.

(** [source_storage]: the local storage the file is collected from. *)
Record SourceStorage := { files : gmap string File }.

(** An open stream ([content]). *)
Record Stream := {
  unread : list byte;
  budget : option nat;
  closed : bool
}.

(** What the command does to its collaborators, in order. *)
Inductive event :=
| EvLog (msg : string)
| EvExists (name : string)
| EvNormalize (name : string)
| EvClean (name : string)
| EvEntriesGet (key : string)
| EvOpen (path : string)
| EvRead (fd : nat) (size : Z).

Record World := {
  storage : Storage;
  streams : list Stream;
  trace : list event
}.

Definition M (A : Type) : Type := World -> result A * World.

Definition ret {A} (a : A) : M A := fun w => (Ok a, w).

Definition raise {A} (e : exn) : M A := fun w => (Raise e, w).

Definition bind {A B} (c : M A) (k : A -> M B) : M B :=
  fun w =>
    match c w with
    | (Ok a, w') => k a w'
    | (Raise e, w') => (Raise e, w')
    end.

(** [try: body  except: handler  else: orelse] *)
Definition try_except_else {A B} (body : M A) (handler : exn -> M B)
    (orelse : A -> M B) : M B :=
  fun w =>
    match body w with
    | (Ok a, w') => orelse a w'
    | (Raise e, w') => handler e w'
    end.

Definition lift {A} (r : result A) : M A := fun w => (r, w).

Declare Scope cmd_scope.
Delimit Scope cmd_scope with cmd.
Notation "x <- c ;; k" := (bind c (fun x => k))
  (at level 100, c at next level, right associativity) : cmd_scope.
Notation "c ;; k" := (bind c (fun _ => k))
  (at level 100, right associativity) : cmd_scope.
Local Open Scope cmd_scope.

(** The world after one more event. *)
Definition record (w : World) (e : event) : World :=
  {| storage := storage w; streams := streams w;
     trace := (trace w ++ [e])%list |}.

Definition emit (e : event) : M unit := fun w => (Ok tt, record w e).

Definition get_storage : M Storage := fun w => (Ok (storage w), w).

Definition set_storage (s : Storage) : M unit :=
  fun w => (Ok tt, {| storage := s; streams := streams w; trace := trace w |}).

(** [storage.preload_metadata = v] *)
Definition set_preload_metadata (s : Storage) (v : bool) : Storage :=
  {| preload_metadata := Some v;
     _normalize_name := _normalize_name s;
     _clean_name := _clean_name s;
     location := location s;
     entries := entries s;
     exists_ := exists_ s |}.

(** [obj.attr] for an attribute the object may lack. *)
Definition getattr {A} (name : string) (a : option A) : M A :=
  match a with
  | Some v => ret v
  | None => raise (AttributeError name)
  end.

(** [self.log(msg)], Django's [collectstatic.Command.log], for a command
    whose [verbosity] attribute is as given.  The method reads
    [self.verbosity], which [set_options] assigns: on a command that has not
    been through [set_options] the call raises.  [EvLog] stands for a call
    that returned; Django passes the message on to [self.stdout] when the
    verbosity is 2 or more. *)
Definition log_with (verbosity : option Z) (msg : string) : M unit :=
  getattr "verbosity" verbosity ;;
  emit (EvLog msg).

(** [self.log(msg)] where [set_options] has run: in [get_entry_path] and in
    [delete_file], which [collect] calls after [handle] has set the
    options. *)
Definition log (msg : string) : M unit := emit (EvLog msg).

(** ** Strings *)

(** [s.replace(c, '')] for a one-character [c]. *)
Fixpoint str_remove (c : ascii) (s : string) : string :=
  match s with
  | EmptyString => EmptyString
  | String a s' =>
      if Ascii.eqb a c then str_remove c s' else String a (str_remove c s')
  end.

Fixpoint endswith (s : string) (c : ascii) : bool :=
  match s with
  | EmptyString => false
  | String a EmptyString => Ascii.eqb a c
  | String _ s' => endswith s' c
  end.

(** The double quotation mark, and a string wrapped in a pair of them. *)
Definition dquote : ascii := "034"%char.

Definition quoted (s : string) : string :=
  String dquote (s ++ String dquote EmptyString).

(** [os.path.join(a, b)] (posixpath). *)
Definition os_path_join (a b : string) : string :=
  if String.prefix "/" b then b
  else if String.eqb a "" || endswith a "/" then a ++ b
  else a ++ "/" ++ b.

(** ** Streams *)

(** [source_storage.open(path)] *)
Definition storage_open (source_storage : SourceStorage) (path : string)
    : M nat :=
  emit (EvOpen path) ;;
  match files source_storage !! path with
  | None => raise (IOError "No such file or directory")
  | Some f =>
      fun w =>
        (Ok (length (streams w)),
         {| storage := storage w;
            streams := (streams w ++
                        [{| unread := data f; budget := fault f;
                            closed := false |}])%list;
            trace := trace w |})
  end.

(** The bytes a read of [size] takes off a stream: all of them for -1, at
    most [size] of them otherwise. *)
Definition take (size : Z) (bs : list byte) : list byte :=
  if size =? -1 then bs else firstn (Z.to_nat size) bs.

Definition covers (b : option nat) (n : nat) : bool :=
  match b with
  | None => true
  | Some k => (n <=? k)%nat
  end.

Definition spend (b : option nat) (n : nat) : option nat :=
  match b with
  | None => None
  | Some k => Some (k - n)%nat
  end.

(** [content.read(size)]: a size of -1 reads to the end, a size below -1 is
    refused. *)
Definition stream_read (fd : nat) (size : Z) : M (list byte) :=
  emit (EvRead fd size) ;;
  fun w =>
    match streams w !! fd with
    | None => (Raise (ValueError "bad file descriptor"), w)
    | Some s =>
        if closed s then (Raise (ValueError "I/O operation on closed file"), w)
        else if size <? -1 then
          (Raise (ValueError "read length must be non-negative or -1"), w)
        else
          let chunk := take size (unread s) in
          if covers (budget s) (length chunk) then
            (Ok chunk,
             {| storage := storage w;
                streams := <[fd := {| unread := skipn (length chunk) (unread s);
                                      budget := spend (budget s) (length chunk);
                                      closed := false |}]> (streams w);
                trace := trace w |})
          else (Raise (IOError "Input/output error"), w)
    end.

(** [content.close()]; the file API has it, the command never calls it. *)
Definition stream_close (fd : nat) : M unit :=
  fun w =>
    (Ok tt,
     {| storage := storage w;
        streams := alter (fun s => {| unread := unread s; budget := budget s;
                                      closed := true |}) fd (streams w);
        trace := trace w |}).

(** ** The command *)

Section Command.

(** [django.conf.settings], and the two methods of Django's own
    [collectstatic.Command] that the override hands off to.  With the base
    constructor comes the [verbosity] attribute as it leaves it: Django
    assigns the attribute in [set_options], after the command is constructed,
    so that the base constructor leaves it unset. *)
Variable settings : gmap string bool.
Variable base_init : M unit.
Variable base_verbosity : option Z.
Variable base_delete_file : string -> string -> SourceStorage -> M bool.

(** [AWS_FAST_COLLECTSTATIC = getattr(settings, 'AWS_FAST_COLLECTSTATIC', False)] *)
Definition AWS_FAST_COLLECTSTATIC : bool :=
  default false (settings !! "AWS_FAST_COLLECTSTATIC").

(** [Command.__init__] *)
Definition __init__ : M unit :=
  base_init ;;
  self_storage <- get_storage ;;
  if AWS_FAST_COLLECTSTATIC
     && negb (default true (preload_metadata self_storage))
  then
    log_with base_verbosity "Forcing storage to preload metadata" ;;
    set_storage (set_preload_metadata self_storage true)
  else ret tt.

(** [Command.get_entry_path] *)
Definition get_entry_path (prefixed_path : string) (storage : Storage)
    : M string :=
  match _normalize_name storage with
  | Some normalize =>
      emit (EvNormalize prefixed_path) ;; lift (normalize prefixed_path)
  | None =>
      match _clean_name storage with
      | Some clean => emit (EvClean prefixed_path) ;; lift (clean prefixed_path)
      | None =>
          log ("Unknown storage, guessing entry path for " ++ prefixed_path) ;;
          self_storage <- get_storage ;;
          loc <- getattr "location" (location self_storage) ;;
          ret (os_path_join loc prefixed_path)
      end
  end.

(** [Command.get_remote_hash] *)
Definition get_remote_hash (prefixed_path : string) : M string :=
  self_storage <- get_storage ;;
  entry_path <- get_entry_path prefixed_path self_storage ;;
  self_storage <- get_storage ;;
  index <- lift (entries self_storage) ;;
  emit (EvEntriesGet entry_path) ;;
  entry <- getattr "etag" (index !! entry_path) ;;
  tag <- getattr "replace" (etag entry) ;;
  ret (str_remove dquote tag).

(** [for chunk in iter(lambda: content.read(block_size), b''): md5.update(chunk)].
    A read that is not the last one takes at least one byte off the stream,
    so [n] rounds are enough for a stream with fewer than [n] unread bytes. *)
Fixpoint read_chunks (n : nat) (content : nat) (block_size : Z) (md5 : MD5.t)
    : M MD5.t :=
  match n with
  | O => raise (RuntimeError "iteration bound exceeded")
  | S n' =>
      chunk <- stream_read content block_size ;;
      match chunk with
      | [] => ret md5
      | _ => read_chunks n' content block_size (MD5.update md5 chunk)
      end
  end.

Definition unread_bytes (content : nat) (w : World) : nat :=
  match streams w !! content with
  | Some s => length (unread s)
  | None => 0%nat
  end.

(** [Command.get_local_hash] *)
Definition get_local_hash (path : string) (source_storage : SourceStorage)
    (block_size : Z) : M string :=
  let md5 := MD5.new in
  content <- storage_open source_storage path ;;
  md5 <- (fun w =>
            read_chunks (S (unread_bytes content w)) content block_size md5 w) ;;
  ret (MD5.hexdigest md5).

(** The default of [block_size]. *)
Definition default_block_size : Z := 2 ^ 20.

(** [storage.exists(prefixed_path)] *)
Definition storage_exists (prefixed_path : string) : M bool :=
  emit (EvExists prefixed_path) ;;
  self_storage <- get_storage ;;
  lift (exists_ self_storage prefixed_path).

(** The body of the [try] in [delete_file]. *)
Definition get_hashes (path prefixed_path : string)
    (source_storage : SourceStorage) : M (string * string) :=
  remote_hash <- get_remote_hash prefixed_path ;;
  local_hash <- get_local_hash path source_storage default_block_size ;;
  ret (remote_hash, local_hash).

(** [Command.delete_file] *)
Definition delete_file (path prefixed_path : string)
    (source_storage : SourceStorage) : M bool :=
  if negb AWS_FAST_COLLECTSTATIC
  then base_delete_file path prefixed_path source_storage
  else
    found <- storage_exists prefixed_path ;;
    if found : bool then
      try_except_else
        (get_hashes path prefixed_path source_storage)
        (fun _ => base_delete_file path prefixed_path source_storage)
        (fun '(remote_hash, local_hash) =>
           if String.eqb remote_hash local_hash then
             log ("Skipping '" ++ path ++ "' (not modified based on hash)") ;;
             ret false
           else ret true)
    else ret true.

End Command.

Arguments default_block_size : simpl never.
Arguments MD5.update : simpl never.
Arguments MD5.hexdigest : simpl never.
Arguments MD5.new : simpl never.

(** The stream after [n] of its bytes were read. *)
Definition advance (s : Stream) (n : nat) : Stream :=
  {| unread := skipn n (unread s); budget := spend (budget s) n;
     closed := false |}.

(** The world right after a successful [open]. *)
Definition opened (w : World) (path : string) (f : File) : World :=
  {| storage := storage w;
     streams := (streams w ++ [{| unread := data f; budget := fault f;
                                  closed := false |}])%list;
     trace := (trace w ++ [EvOpen path])%list |}.

(** Obtaining a fingerprint failed: the remote lookup raised, or it returned
    and reading the local file raised. *)
Definition hash_failure (path prefixed_path : string)
    (source_storage : SourceStorage) (w1 : World) (e : exn) (w2 : World)
    : Prop :=
  get_remote_hash prefixed_path w1 = (Raise e, w2)
  \/ exists remote_hash w',
       get_remote_hash prefixed_path w1 = (Ok remote_hash, w')
       /\ get_local_hash path source_storage default_block_size w'
          = (Raise e, w2).

Definition bytes_of_string (s : string) : list byte :=
  map byte_of_ascii (list_ascii_of_string s).

(** ** Sample collaborators *)

(** A backend in the style of S3BotoStorage: it normalizes names itself and
    answers [exists] from its preloaded index. *)
Definition boto_storage (index : gmap string Entry) : Storage :=
  {| preload_metadata := Some true;
     _normalize_name := Some (fun name => Ok (os_path_join "static" name));
     _clean_name := Some (fun name => Ok name);
     location := Some "static";
     entries := Ok index;
     exists_ := fun name => Ok (bool_decide (is_Some (index !! os_path_join "static" name))) |}.

(** A backend the command knows nothing about, with or without a [location]. *)
Definition plain_storage (loc : option string) (index : gmap string Entry)
    : Storage :=
  {| preload_metadata := None;
     _normalize_name := None;
     _clean_name := None;
     location := loc;
     entries := Ok index;
     exists_ := fun name => Ok true |}.

(** A backend that was configured not to preload. *)
Definition lazy_storage : Storage :=
  {| preload_metadata := Some false;
     _normalize_name := Some (fun name => Ok name);
     _clean_name := None;
     location := Some "";
     entries := Ok ∅;
     exists_ := fun name => Ok false |}.

Definition world_of (s : Storage) : World :=
  {| storage := s; streams := []; trace := [] |}.

Definition local_files : SourceStorage :=
  {| files := {[ "css/empty.css" := {| data := []; fault := None |};
                 "js/hello.js" := {| data := bytes_of_string "hello world";
                                     fault := None |};
                 "img/broken.png" := {| data := bytes_of_string "hello world";
                                        fault := Some 4%nat |} ]} |}.

Definition fast_settings : gmap string bool :=
  {[ "AWS_FAST_COLLECTSTATIC" := true ]}.

Definition default_settings : gmap string bool := ∅.

(** Django's [delete_file] on a target that is not older than the source:
    it reports the file as unmodified and answers [False]. *)
Definition django_unmodified (path prefixed_path : string)
    (source_storage : SourceStorage) : M bool :=
  (log ("Skipping '" ++ path ++ "' (not modified)") ;; ret false)%cmd.

(** Django's [delete_file] on a target that is older than the source. *)
Definition django_modified (path prefixed_path : string)
    (source_storage : SourceStorage) : M bool :=
  (log ("Deleting '" ++ path ++ "'") ;; ret true)%cmd.

Definition django_init : M unit := ret tt.

(** Django's constructor does not assign [verbosity]. *)
Definition django_verbosity : option Z := None.

Definition md5_empty : string := "d41d8cd98f00b204e9800998ecf8427e".
Definition md5_hello_world : string := "5eb63bbbe01eeed093cb22bb8f5acdc3".

(** A bucket that holds one object under [static/], with the given etag. *)
Definition bucket (name tag : string) : World :=
  world_of (boto_storage {[ "static/" ++ name := {| etag := Some tag |} ]}).

(** A backend that cannot reach its bucket. *)
Definition offline_storage : Storage :=
  {| preload_metadata := Some true;
     _normalize_name := Some (fun name => Ok name);
     _clean_name := None;
     location := Some "";
     entries := Raise (Exception "S3ResponseError");
     exists_ := fun name => Raise (Exception "S3ResponseError") |}.

(** The characters a digest is written with. *)
Definition is_hex_digit (c : ascii) : bool :=
  existsb (Ascii.eqb c) (list_ascii_of_string "0123456789abcdef").

(** The number of reads it takes to reach the end of [len] bytes in chunks
    of [size] bytes: one per chunk, full or not, and the one that finds the
    stream empty. *)
Definition reads_needed (len size : nat) : nat :=
  S ((len + size - 1) / size).

(** ** Properties *)

Example md5_of_nothing :
  MD5.hexdigest MD5.new = "d41d8cd98f00b204e9800998ecf8427e".
Proof. vm_compute. reflexivity. Qed.

Example md5_of_hello_world :
  MD5.hexdigest (MD5.update MD5.new (bytes_of_string "hello world"))
  = "5eb63bbbe01eeed093cb22bb8f5acdc3".
Proof. vm_compute. reflexivity. Qed.

Ltac run :=
  unfold bind, ret, raise, lift, emit, log, get_storage, set_storage, getattr,
    try_except_else; simpl.

(** Every call only adds to the trace. *)

Lemma stream_read_trace (fd : nat) (size : Z) (w : World) :
  trace (snd (stream_read fd size w)) = (trace w ++ [EvRead fd size])%list.
Proof.
  unfold stream_read. run.
  destruct (streams w !! fd) as [s|]; [|reflexivity].
  destruct (closed s); [reflexivity|].
  destruct (size <? -1); [reflexivity|].
  destruct (covers _ _); reflexivity.
Qed.

Lemma read_chunks_trace (n : nat) (fd : nat) (size : Z) :
  forall (md5 : MD5.t) (w : World),
    exists evs,
      trace (snd (read_chunks n fd size md5 w)) = (trace w ++ evs)%list.
Proof.
  induction n as [|n IH]; intros md5 w; simpl.
  - exists []. run. now rewrite app_nil_r.
  - unfold bind at 1.
    pose proof (stream_read_trace fd size w) as Ht.
    destruct (stream_read fd size w) as [[chunk|e] w1]; simpl in Ht.
    + destruct chunk as [|b chunk].
      * exists [EvRead fd size]. exact Ht.
      * destruct (IH (MD5.update md5 (b :: chunk)) w1) as [evs Hevs].
        exists (EvRead fd size :: evs). rewrite Hevs, Ht, <- app_assoc.
        reflexivity.
    + exists [EvRead fd size]. exact Ht.
Qed.

Lemma get_local_hash_trace (path : string) (source_storage : SourceStorage)
    (size : Z) (w : World) :
  exists evs,
    trace (snd (get_local_hash path source_storage size w))
    = (trace w ++ EvOpen path :: evs)%list.
Proof.
  unfold get_local_hash, storage_open, bind, ret, raise, emit.
  destruct (files source_storage !! path) as [f|]; cbn -[read_chunks].
  - match goal with
    | |- context [read_chunks ?n ?fd ?sz ?m ?w1] =>
        destruct (read_chunks_trace n fd sz m w1) as [evs Hevs];
        destruct (read_chunks n fd sz m w1) as [[m'|e] w2]
    end; simpl in *; exists evs; rewrite Hevs, <- app_assoc; reflexivity.
  - exists []. reflexivity.
Qed.

Lemma get_entry_path_trace (prefixed_path : string) (s : Storage) (w : World) :
  exists e,
    trace (snd (get_entry_path prefixed_path s w)) = (trace w ++ [e])%list
    /\ storage (snd (get_entry_path prefixed_path s w)) = storage w
    /\ streams (snd (get_entry_path prefixed_path s w)) = streams w.
Proof.
  unfold get_entry_path.
  destruct (_normalize_name s) as [f|]; [|destruct (_clean_name s) as [g|]]; run.
  - exists (EvNormalize prefixed_path). destruct (f prefixed_path); auto.
  - exists (EvClean prefixed_path). destruct (g prefixed_path); auto.
  - eexists. destruct (location (storage w)); simpl; eauto.
Qed.

Lemma get_remote_hash_trace (prefixed_path : string) (w : World) :
  exists e evs,
    trace (snd (get_remote_hash prefixed_path w)) = (trace w ++ e :: evs)%list.
Proof.
  unfold get_remote_hash. run.
  destruct (get_entry_path_trace prefixed_path (storage w) w) as (e & Ht & Hs & _).
  exists e.
  destruct (get_entry_path prefixed_path (storage w) w) as [[ep|x] w1];
    simpl in *; [|exists []; exact Ht].
  destruct (entries (storage w1)) as [index|x]; simpl; [|exists []; exact Ht].
  destruct (index !! ep) as [entry|]; unfold ret, raise, record; simpl;
    [destruct (etag entry); simpl|]; rewrite Ht, <- app_assoc; simpl; eauto.
Qed.

(** Feeding the digest object piecewise is feeding it the whole. *)

Lemma update_app (m : MD5.t) (a b : list byte) :
  MD5.update (MD5.update m a) b = MD5.update m (a ++ b)%list.
Proof. unfold MD5.update. now rewrite fold_left_app. Qed.

Lemma firstn_skipn_length {A} (l : list A) :
  forall k, (firstn k l ++ skipn (length (firstn k l)) l)%list = l.
Proof.
  induction l as [|a l IH]; intros [|k]; simpl; try reflexivity.
  now rewrite IH.
Qed.

Lemma take_positive (size : Z) (bs : list byte) :
  1 <= size -> take size bs = firstn (Z.to_nat size) bs.
Proof.
  intros H. unfold take. destruct (Z.eqb_spec size (-1)); [lia|reflexivity].
Qed.

Lemma take_nil (size : Z) (bs : list byte) :
  1 <= size -> take size bs = [] -> bs = [].
Proof.
  intros H. rewrite take_positive by exact H.
  destruct (Z.to_nat size) eqn:E; [lia|].
  destruct bs; [reflexivity|discriminate].
Qed.

Lemma take_length (size : Z) (bs : list byte) :
  (length (take size bs) <= length bs)%nat.
Proof.
  unfold take. destruct (size =? -1); [lia|]. rewrite length_firstn. lia.
Qed.

Lemma take_skipn (size : Z) (bs : list byte) :
  (take size bs ++ skipn (length (take size bs)) bs)%list = bs.
Proof.
  unfold take. destruct (size =? -1).
  - rewrite skipn_all. apply app_nil_r.
  - apply firstn_skipn_length.
Qed.

Lemma covers_spend (b : option nat) (c u : nat) :
  covers b c = true -> (c <= u)%nat ->
  covers (spend b c) (u - c) = covers b u.
Proof.
  destruct b as [k|]; simpl; [|reflexivity].
  intros Hc Hu. apply Nat.leb_le in Hc.
  destruct (Nat.leb_spec u k), (Nat.leb_spec (u - c) (k - c)); lia || reflexivity.
Qed.

Lemma covers_less (b : option nat) (c u : nat) :
  covers b c = false -> (c <= u)%nat -> covers b u = false.
Proof.
  destruct b as [k|]; simpl; [|discriminate].
  intros Hc Hu. apply Nat.leb_gt in Hc. apply Nat.leb_gt. lia.
Qed.

(** The two outcomes of a read on an open stream. *)

Lemma stream_read_ok (fd : nat) (size : Z) (w : World) (s : Stream) :
  -1 <= size ->
  streams w !! fd = Some s ->
  closed s = false ->
  covers (budget s) (length (take size (unread s))) = true ->
  stream_read fd size w
  = (Ok (take size (unread s)),
     {| storage := storage w;
        streams := <[fd := advance s (length (take size (unread s)))]>
                     (streams w);
        trace := (trace w ++ [EvRead fd size])%list |}).
Proof.
  intros Hsize Hs Hc Hb. unfold stream_read. run. rewrite Hs, Hc.
  destruct (Z.ltb_spec size (-1)); [lia|]. rewrite Hb. reflexivity.
Qed.

Lemma stream_read_fault (fd : nat) (size : Z) (w : World) (s : Stream) :
  -1 <= size ->
  streams w !! fd = Some s ->
  closed s = false ->
  covers (budget s) (length (take size (unread s))) = false ->
  stream_read fd size w
  = (Raise (IOError "Input/output error"), record w (EvRead fd size)).
Proof.
  intros Hsize Hs Hc Hb. unfold stream_read. run. rewrite Hs, Hc.
  destruct (Z.ltb_spec size (-1)); [lia|]. rewrite Hb. reflexivity.
Qed.

Lemma stream_read_refused (fd : nat) (size : Z) (w : World) (s : Stream) :
  size < -1 ->
  streams w !! fd = Some s ->
  closed s = false ->
  stream_read fd size w
  = (Raise (ValueError "read length must be non-negative or -1"),
     record w (EvRead fd size)).
Proof.
  intros Hsize Hs Hc. unfold stream_read. run. rewrite Hs, Hc.
  destruct (Z.ltb_spec size (-1)); [reflexivity|lia].
Qed.

(** The loop hashes everything that is left on the stream, whatever the size
    of the chunks, unless the device fails first; the bound on the number of
    rounds is never reached. *)
Lemma read_chunks_result (fd : nat) (size : Z) (n : nat) :
  1 <= size ->
  forall (md5 : MD5.t) (w : World) (s : Stream),
    streams w !! fd = Some s ->
    closed s = false ->
    (length (unread s) < n)%nat ->
    fst (read_chunks n fd size md5 w)
    = if covers (budget s) (length (unread s))
      then Ok (MD5.update md5 (unread s))
      else Raise (IOError "Input/output error").
Proof.
  intros Hsize. assert (Hge : -1 <= size) by lia.
  induction n as [|n IH]; intros md5 w s Hs Hc Hn; [lia|].
  simpl. unfold bind at 1.
  destruct (covers (budget s) (length (take size (unread s)))) eqn:Hb.
  - rewrite (stream_read_ok _ _ _ _ Hge Hs Hc Hb).
    destruct (take size (unread s)) as [|b chunk] eqn:Hchunk.
    + apply take_nil in Hchunk; [|exact Hsize]. rewrite Hchunk in *.
      rewrite Hb. reflexivity.
    + rewrite <- Hchunk in *.
      assert (Hlen : (1 <= length (take size (unread s)))%nat)
        by (rewrite Hchunk; simpl; lia).
      pose proof (take_length size (unread s)) as Hle.
      rewrite (IH _ _ (advance s (length (take size (unread s))))).
      * simpl. rewrite length_skipn, covers_spend by assumption.
        rewrite update_app, take_skipn. reflexivity.
      * simpl. apply list_lookup_insert_eq. eapply lookup_lt_Some. exact Hs.
      * reflexivity.
      * simpl. rewrite length_skipn. lia.
  - rewrite (stream_read_fault _ _ _ _ Hge Hs Hc Hb). simpl.
    rewrite (covers_less _ _ _ Hb (take_length _ _)). reflexivity.
Qed.

(** Reads leave the other streams alone and close nothing. *)
Lemma read_chunks_streams (fd : nat) (size : Z) (n : nat) :
  forall (md5 : MD5.t) (w : World) (s : Stream) (r : result MD5.t)
         (w' : World),
    streams w !! fd = Some s ->
    closed s = false ->
    read_chunks n fd size md5 w = (r, w') ->
    exists s',
      streams w' = <[fd := s']> (streams w)
      /\ closed s' = false
      /\ storage w' = storage w.
Proof.
  induction n as [|n IH]; intros md5 w s r w' Hs Hc Hrun; simpl in Hrun.
  - injection Hrun as _ <-. exists s.
    rewrite list_insert_id by exact Hs. auto.
  - unfold bind at 1 in Hrun.
    destruct (Z.lt_ge_cases size (-1)) as [Hlow|Hge].
    { rewrite (stream_read_refused _ _ _ _ Hlow Hs Hc) in Hrun.
      injection Hrun as _ <-. exists s.
      rewrite list_insert_id by exact Hs. auto. }
    destruct (covers (budget s) (length (take size (unread s)))) eqn:Hb.
    + rewrite (stream_read_ok _ _ _ _ Hge Hs Hc Hb) in Hrun.
      set (s1 := advance s (length (take size (unread s)))) in *.
      destruct (take size (unread s)) as [|b chunk].
      * injection Hrun as _ <-. exists s1. auto.
      * apply (IH _ _ s1) in Hrun.
        -- destruct Hrun as (s' & H1 & H2 & H3). exists s'.
           rewrite H1, H3. simpl. rewrite list_insert_insert_eq. auto.
        -- simpl. apply list_lookup_insert_eq. eapply lookup_lt_Some.
           exact Hs.
        -- reflexivity.
    + rewrite (stream_read_fault _ _ _ _ Hge Hs Hc Hb) in Hrun.
      injection Hrun as _ <-. exists s.
      rewrite list_insert_id by exact Hs. auto.
Qed.

Lemma storage_open_ok (source_storage : SourceStorage) (path : string)
    (f : File) (w : World) :
  files source_storage !! path = Some f ->
  storage_open source_storage path w
  = (Ok (length (streams w)), opened w path f).
Proof. intros Hf. unfold storage_open. run. rewrite Hf. reflexivity. Qed.

Lemma storage_open_missing (source_storage : SourceStorage) (path : string)
    (w : World) :
  files source_storage !! path = None ->
  storage_open source_storage path w
  = (Raise (IOError "No such file or directory"), record w (EvOpen path)).
Proof. intros Hf. unfold storage_open. run. rewrite Hf. reflexivity. Qed.

Lemma opened_lookup (w : World) (path : string) (f : File) :
  streams (opened w path f) !! length (streams w)
  = Some {| unread := data f; budget := fault f; closed := false |}.
Proof.
  unfold opened. cbn [streams]. rewrite lookup_app_r by lia.
  rewrite Nat.sub_diag. reflexivity.
Qed.

Lemma get_local_hash_result (path : string) (source_storage : SourceStorage)
    (size : Z) (w : World) :
  1 <= size ->
  fst (get_local_hash path source_storage size w)
  = match files source_storage !! path with
    | None => Raise (IOError "No such file or directory")
    | Some f =>
        if covers (fault f) (length (data f))
        then Ok (MD5.hexdigest (MD5.update MD5.new (data f)))
        else Raise (IOError "Input/output error")
    end.
Proof.
  intros Hsize. unfold get_local_hash, bind.
  destruct (files source_storage !! path) as [f|] eqn:Hf.
  - rewrite (storage_open_ok _ _ _ _ Hf).
    pose proof (opened_lookup w path f) as Hl.
    pose proof (read_chunks_result (length (streams w)) size
                  (S (unread_bytes (length (streams w)) (opened w path f)))
                  Hsize MD5.new _ _ Hl eq_refl) as Hr.
    unfold unread_bytes in Hr at 1. rewrite Hl in Hr.
    specialize (Hr (Nat.lt_succ_diag_r _)). cbn [unread budget] in Hr.
    destruct (read_chunks _ _ _ _ _) as [[m'|e] w2]; cbn [fst] in *;
      destruct (covers (fault f) (length (data f)));
      unfold ret; cbn [fst]; congruence.
  - rewrite (storage_open_missing _ _ _ Hf). reflexivity.
Qed.

Lemma get_local_hash_hex (path : string) (source_storage : SourceStorage)
    (size : Z) (w w' : World) (h : string) :
  get_local_hash path source_storage size w = (Ok h, w') ->
  exists m, h = MD5.hexdigest m.
Proof.
  unfold get_local_hash, bind, ret.
  destruct (storage_open source_storage path w) as [[fd|e] w1];
    [|discriminate].
  destruct (read_chunks _ _ _ _ _) as [[m|e] w2]; [|discriminate].
  intros H. injection H as <- _. exists m. reflexivity.
Qed.

(** Digests are written with the digits 0-9 and a-f only. *)

Lemma hex_digits_of_byte (b : byte) :
  Ascii.eqb (MD5.hex_digit (MD5.byte_to_Z b / 16)) dquote = false
  /\ Ascii.eqb (MD5.hex_digit (MD5.byte_to_Z b mod 16)) dquote = false.
Proof. destruct b; split; vm_compute; reflexivity. Qed.

Lemma hex_of_bytes_unquoted (bs : list byte) :
  str_remove dquote (MD5.hex_of_bytes bs) = MD5.hex_of_bytes bs.
Proof.
  induction bs as [|b bs IH]; [reflexivity|].
  destruct (hex_digits_of_byte b) as [H1 H2].
  cbn [MD5.hex_of_bytes str_remove]. rewrite H1, H2, IH. reflexivity.
Qed.

Lemma str_remove_app (c : ascii) (a b : string) :
  str_remove c (a ++ b) = str_remove c a ++ str_remove c b.
Proof.
  induction a as [|x a IH]; [reflexivity|].
  simpl. rewrite IH. destruct (Ascii.eqb x c); reflexivity.
Qed.

Lemma append_empty (a : string) : a ++ EmptyString = a.
Proof.
  induction a as [|x a IH]; [reflexivity|].
  rewrite <- IH at 2. reflexivity.
Qed.

Lemma str_remove_quoted (h : string) :
  str_remove dquote h = h -> str_remove dquote (quoted h) = h.
Proof.
  intros Hh. unfold quoted. cbn [str_remove].
  rewrite Ascii.eqb_refl, str_remove_app, Hh. cbn [str_remove].
  rewrite Ascii.eqb_refl. apply append_empty.
Qed.

Section Properties.

Variable settings : gmap string bool.
Variable base_init : M unit.
Variable base_verbosity : option Z.
Variable base_delete_file : string -> string -> SourceStorage -> M bool.

Abbreviation flag := (AWS_FAST_COLLECTSTATIC settings).
Abbreviation init := (__init__ settings base_init base_verbosity).
Abbreviation delete := (delete_file settings base_delete_file).

(** *** The constructor *)

(** C8 (where the code falls short of its docstring). The constructor is
    there to switch preloading on, with a notice, but it logs the notice
    first, and on a command that Django's constructor has just built
    [verbosity] is not set: with the flag on and [preload_metadata] off the
    constructor raises [AttributeError], the storage stays as the base
    constructor left it and nothing is logged.  With the flag off the
    constructor is the base constructor. *)
Theorem init_raises_before_forcing (w w1 : World) :
  base_verbosity = None ->
  base_init w = (Ok tt, w1) ->
  (flag = true -> preload_metadata (storage w1) = Some false ->
   init w = (Raise (AttributeError "verbosity"), w1))
  /\ (flag = false -> init w = (Ok tt, w1)).
Proof.
  intros Hunset Hbase. unfold __init__, log_with. run.
  rewrite Hbase, Hunset. split.
  - intros -> ->. reflexivity.
  - intros ->. reflexivity.
Qed.

(** Were [verbosity] set when the constructor runs, the notice would be
    logged and preloading switched on. *)
Lemma init_forces_preload_once_configured (w w1 : World) (v : Z) :
  base_verbosity = Some v ->
  base_init w = (Ok tt, w1) ->
  flag = true ->
  preload_metadata (storage w1) = Some false ->
  init w = (Ok tt,
            {| storage := set_preload_metadata (storage w1) true;
               streams := streams w1;
               trace := (trace w1 ++
                         [EvLog "Forcing storage to preload metadata"])%list |}).
Proof.
  intros Hset Hbase Hflag Hoff. unfold __init__, log_with. run.
  rewrite Hbase, Hset, Hflag, Hoff. reflexivity.
Qed.

(** C10. A storage without a [preload_metadata] attribute counts as
    preloading: whatever the flag, the constructor does what the base
    constructor does, sets nothing and logs nothing. *)
Theorem init_without_attribute (w w1 : World) :
  base_init w = (Ok tt, w1) ->
  preload_metadata (storage w1) = None ->
  init w = (Ok tt, w1).
Proof.
  intros Hbase Hnone. unfold __init__. run. rewrite Hbase, Hnone.
  simpl. rewrite andb_false_r. reflexivity.
Qed.

(** *** The entry path *)

(** C7 (as the code has it). For a backend with neither [_normalize_name] nor
    [_clean_name], [get_entry_path] logs its notice and, when the command's
    storage has a [location], returns that location joined with the prefixed
    path. *)
Theorem get_entry_path_guess (prefixed_path loc : string) (s : Storage)
    (w : World) :
  _normalize_name s = None ->
  _clean_name s = None ->
  location (storage w) = Some loc ->
  get_entry_path prefixed_path s w
  = (Ok (os_path_join loc prefixed_path),
     record w (EvLog ("Unknown storage, guessing entry path for "
                      ++ prefixed_path))).
Proof.
  intros Hn Hc Hl. unfold get_entry_path. rewrite Hn, Hc. run.
  rewrite Hl. reflexivity.
Qed.

(** Without a [location] the notice is followed by an [AttributeError]. *)
Lemma get_entry_path_no_location (prefixed_path : string) (s : Storage)
    (w : World) :
  _normalize_name s = None ->
  _clean_name s = None ->
  location (storage w) = None ->
  get_entry_path prefixed_path s w
  = (Raise (AttributeError "location"),
     record w (EvLog ("Unknown storage, guessing entry path for "
                      ++ prefixed_path))).
Proof.
  intros Hn Hc Hl. unfold get_entry_path. rewrite Hn, Hc. run.
  rewrite Hl. reflexivity.
Qed.

(** *** The decision with the flag off *)

(** C4. With the flag off [delete_file] is the base [delete_file]: the same
    answer or error and the same effects, and nothing besides. *)
Theorem delete_file_flag_off (path prefixed_path : string)
    (source_storage : SourceStorage) (w : World) :
  flag = false ->
  delete path prefixed_path source_storage w
  = base_delete_file path prefixed_path source_storage w.
Proof.
  intros Hflag. unfold delete_file. rewrite Hflag. reflexivity.
Qed.

(** *** The decision with the flag on *)

Lemma get_hashes_raise (path prefixed_path : string)
    (source_storage : SourceStorage) (w1 : World) (e : exn) (w2 : World) :
  get_hashes path prefixed_path source_storage w1 = (Raise e, w2)
  <-> hash_failure path prefixed_path source_storage w1 e w2.
Proof.
  unfold get_hashes, hash_failure. run.
  destruct (get_remote_hash prefixed_path w1) as [[rh|x] w']; simpl.
  - destruct (get_local_hash path source_storage default_block_size w')
      as [[lh|y] w''] eqn:El; simpl; split.
    + discriminate.
    + intros [H|(rh' & w3 & H1 & H2)]; [discriminate|].
      injection H1 as <- <-. rewrite El in H2. discriminate.
    + intros H. injection H as <- <-. right. exists rh, w'. auto.
    + intros [H|(rh' & w3 & H1 & H2)]; [discriminate|].
      injection H1 as <- <-. rewrite El in H2. injection H2 as <- <-.
      reflexivity.
  - split.
    + intros H. injection H as <- <-. left. reflexivity.
    + intros [H|(rh' & w3 & H1 & _)]; [|discriminate].
      injection H as <- <-. reflexivity.
Qed.

Lemma get_hashes_ok (path prefixed_path : string)
    (source_storage : SourceStorage) (w1 w3 : World) (rh lh : string) :
  get_hashes path prefixed_path source_storage w1 = (Ok (rh, lh), w3)
  <-> exists w2,
        get_remote_hash prefixed_path w1 = (Ok rh, w2)
        /\ get_local_hash path source_storage default_block_size w2
           = (Ok lh, w3).
Proof.
  unfold get_hashes. run.
  destruct (get_remote_hash prefixed_path w1) as [[rh'|x] w']; simpl.
  - destruct (get_local_hash path source_storage default_block_size w')
      as [[lh'|y] w''] eqn:El; simpl; split.
    + intros H. injection H as <- <- <-. exists w'. auto.
    + intros (w2 & H1 & H2). injection H1 as <- <-. rewrite El in H2.
      injection H2 as <- <-. reflexivity.
    + discriminate.
    + intros (w2 & H1 & H2). injection H1 as <- <-. rewrite El in H2.
      discriminate.
  - split; [discriminate|]. intros (w2 & H1 & _). discriminate.
Qed.

(** C3. With the flag on and no object at the prefixed path, [delete_file]
    answers [True] after the existence check alone: the check is the only
    event it adds, whereas a call of [get_remote_hash] or of [get_local_hash]
    always adds an event of its own. *)
Theorem delete_file_absent (path prefixed_path : string)
    (source_storage : SourceStorage) (w : World) :
  flag = true ->
  exists_ (storage w) prefixed_path = Ok false ->
  delete path prefixed_path source_storage w
  = (Ok true, record w (EvExists prefixed_path))
  /\ (forall w1, trace (snd (get_remote_hash prefixed_path w1)) <> trace w1)
  /\ (forall size w1,
        trace (snd (get_local_hash path source_storage size w1)) <> trace w1).
Proof.
  intros Hflag Hex. split; [|split].
  - unfold delete_file, storage_exists. rewrite Hflag. run.
    rewrite Hex. reflexivity.
  - intros w1 Heq.
    destruct (get_remote_hash_trace prefixed_path w1) as (e & evs & Ht).
    rewrite Heq in Ht. apply (f_equal (@length event)) in Ht.
    rewrite length_app in Ht. simpl in Ht. lia.
  - intros size w1 Heq.
    destruct (get_local_hash_trace path source_storage size w1) as (evs & Ht).
    rewrite Heq in Ht. apply (f_equal (@length event)) in Ht.
    rewrite length_app in Ht. simpl in Ht. lia.
Qed.

(** C2. With the flag on, an object at the prefixed path and both
    fingerprints obtained, [delete_file] answers [False] when the etag with
    its quotation marks dropped equals the local digest, and [True] when it
    differs from it. *)
Theorem delete_file_compares (path prefixed_path : string)
    (source_storage : SourceStorage) (w w1 w2 w3 : World)
    (remote_hash local_hash : string) :
  flag = true ->
  storage_exists prefixed_path w = (Ok true, w1) ->
  get_remote_hash prefixed_path w1 = (Ok remote_hash, w2) ->
  get_local_hash path source_storage default_block_size w2
  = (Ok local_hash, w3) ->
  (remote_hash = local_hash ->
   delete path prefixed_path source_storage w
   = (Ok false,
      record w3 (EvLog ("Skipping '" ++ path
                        ++ "' (not modified based on hash)"))))
  /\ (remote_hash <> local_hash ->
      delete path prefixed_path source_storage w = (Ok true, w3))
  /\ (exists entry_path index entry tag,
        entries (storage w1) = Ok index
        /\ index !! entry_path = Some entry
        /\ etag entry = Some tag
        /\ remote_hash = str_remove dquote tag).
Proof.
  intros Hflag Hex Hr Hl.
  assert (Hh : get_hashes path prefixed_path source_storage w1
               = (Ok (remote_hash, local_hash), w3)).
  { apply get_hashes_ok. exists w2. auto. }
  split; [|split].
  - intros Heq. unfold delete_file. rewrite Hflag. simpl.
    unfold bind at 1. rewrite Hex. unfold try_except_else. rewrite Hh.
    apply String.eqb_eq in Heq. rewrite Heq. reflexivity.
  - intros Hne. unfold delete_file. rewrite Hflag. simpl.
    unfold bind at 1. rewrite Hex. unfold try_except_else. rewrite Hh.
    apply String.eqb_neq in Hne. rewrite Hne. reflexivity.
  - clear Hh Hl Hex. unfold get_remote_hash in Hr. revert Hr. run.
    destruct (get_entry_path_trace prefixed_path (storage w1) w1)
      as (e & _ & Hs & _).
    destruct (get_entry_path prefixed_path (storage w1) w1) as [[ep|x] w'];
      simpl in *; [|discriminate].
    rewrite Hs.
    destruct (entries (storage w1)) as [index|x]; simpl; [|discriminate].
    destruct (index !! ep) as [entry|] eqn:Hi; simpl; [|discriminate].
    destruct (etag entry) as [tag|] eqn:Ht; simpl; [|discriminate].
    intros H. injection H as <- _. exists ep, index, entry, tag. auto.
Qed.

(** C1 (as the code has it). With the flag on, [delete_file] answers [False]
    only when an object exists at the prefixed path and either both
    fingerprints were obtained and are equal, or obtaining one of them raised
    and the base [delete_file] answered [False]; and whenever obtaining a
    fingerprint raises, what [delete_file] does from there on is what the
    base [delete_file] does. *)
Theorem delete_file_skip_cases (path prefixed_path : string)
    (source_storage : SourceStorage) (w : World) :
  flag = true ->
  (fst (delete path prefixed_path source_storage w) = Ok false ->
   exists w1,
     storage_exists prefixed_path w = (Ok true, w1)
     /\ ((exists h w2 w3,
            get_remote_hash prefixed_path w1 = (Ok h, w2)
            /\ get_local_hash path source_storage default_block_size w2
               = (Ok h, w3))
         \/ (exists e w2,
               hash_failure path prefixed_path source_storage w1 e w2
               /\ fst (base_delete_file path prefixed_path source_storage w2)
                  = Ok false)))
  /\ (forall w1 e w2,
        storage_exists prefixed_path w = (Ok true, w1) ->
        hash_failure path prefixed_path source_storage w1 e w2 ->
        delete path prefixed_path source_storage w
        = base_delete_file path prefixed_path source_storage w2).
Proof.
  intros Hflag. unfold delete_file. rewrite Hflag. simpl. split.
  - unfold bind at 1.
    destruct (storage_exists prefixed_path w) as [[[|]|x] w1]; simpl;
      [|discriminate|discriminate].
    intros Hres. exists w1. split; [reflexivity|].
    unfold try_except_else in Hres.
    destruct (get_hashes path prefixed_path source_storage w1)
      as [[[rh lh]|e] w2] eqn:Hh.
    + left. destruct (String.eqb rh lh) eqn:Heq; [|discriminate].
      apply String.eqb_eq in Heq. subst lh.
      apply get_hashes_ok in Hh. destruct Hh as (w' & H1 & H2).
      exists rh, w', w2. auto.
    + right. exists e, w2. split; [|exact Hres].
      apply get_hashes_raise. exact Hh.
  - intros w1 e w2 Hex Hfail. apply get_hashes_raise in Hfail.
    unfold bind at 1. rewrite Hex. unfold try_except_else.
    rewrite Hfail. reflexivity.
Qed.

(** C6. The comparison looks through the quotation marks of an etag: for
    every digest [h], dropping the quotation marks of [h] wrapped in a pair of
    them gives [h] back, and when the index holds the local digest wrapped in
    quotation marks [delete_file] answers [False]. *)
Theorem delete_file_quoted_etag (path prefixed_path entry_path h : string)
    (source_storage : SourceStorage) (index : gmap string Entry)
    (w w1 w2 w3 : World) :
  flag = true ->
  storage_exists prefixed_path w = (Ok true, w1) ->
  get_entry_path prefixed_path (storage w1) w1 = (Ok entry_path, w2) ->
  entries (storage w1) = Ok index ->
  index !! entry_path = Some {| etag := Some (quoted h) |} ->
  get_local_hash path source_storage default_block_size
    (record w2 (EvEntriesGet entry_path)) = (Ok h, w3) ->
  (forall m, str_remove dquote (quoted (MD5.hexdigest m)) = MD5.hexdigest m)
  /\ get_remote_hash prefixed_path w1
     = (Ok h, record w2 (EvEntriesGet entry_path))
  /\ delete path prefixed_path source_storage w
     = (Ok false,
        record w3 (EvLog ("Skipping '" ++ path
                          ++ "' (not modified based on hash)"))).
Proof.
  intros Hflag Hex Hep Hidx Hentry Hlocal.
  assert (Hall : forall m,
             str_remove dquote (quoted (MD5.hexdigest m)) = MD5.hexdigest m).
  { intros m. apply str_remove_quoted. apply hex_of_bytes_unquoted. }
  assert (Hh : str_remove dquote (quoted h) = h).
  { destruct (get_local_hash_hex _ _ _ _ _ _ Hlocal) as [m ->]. apply Hall. }
  assert (Hremote : get_remote_hash prefixed_path w1
                    = (Ok h, record w2 (EvEntriesGet entry_path))).
  { destruct (get_entry_path_trace prefixed_path (storage w1) w1)
      as (e & _ & Hs & _).
    rewrite Hep in Hs. cbn [snd] in Hs.
    unfold get_remote_hash, bind, get_storage, lift, emit, getattr, ret.
    rewrite Hep, Hs, Hidx. cbn [storage record]. rewrite Hentry.
    cbn [etag]. rewrite Hh. reflexivity. }
  split; [exact Hall|]. split; [exact Hremote|].
  unfold delete_file. rewrite Hflag. simpl. unfold bind at 1. rewrite Hex.
  unfold try_except_else.
  rewrite (proj2 (get_hashes_ok path prefixed_path source_storage w1 w3 h h)).
  - rewrite String.eqb_refl. reflexivity.
  - eexists. split; [exact Hremote|exact Hlocal].
Qed.

(** *** The local digest *)

(** C5. For chunk sizes of at least one byte [get_local_hash] returns the
    same thing whatever the chunk size, and for a readable file that is the
    digest of the file's bytes fed to the digest object in one piece. *)
Theorem get_local_hash_chunk_independent (path : string)
    (source_storage : SourceStorage) (size1 size2 : Z) (w1 w2 : World) :
  1 <= size1 ->
  1 <= size2 ->
  fst (get_local_hash path source_storage size1 w1)
  = fst (get_local_hash path source_storage size2 w2)
  /\ (forall f,
        files source_storage !! path = Some f ->
        fault f = None ->
        fst (get_local_hash path source_storage size1 w1)
        = Ok (MD5.hexdigest (MD5.update MD5.new (data f)))).
Proof.
  intros H1 H2. split.
  - rewrite !get_local_hash_result by assumption. reflexivity.
  - intros f Hf Hfault. rewrite get_local_hash_result by assumption.
    rewrite Hf, Hfault. reflexivity.
Qed.

(** C9 (as the code has it). [get_local_hash] opens one stream and closes
    none: when it is done, by a return or by an error, the streams that were
    there are as they were, and the stream it opened is there and open. *)
Theorem get_local_hash_leaves_stream_open (path : string)
    (source_storage : SourceStorage) (size : Z) (w : World) :
  storage (snd (get_local_hash path source_storage size w)) = storage w
  /\ match files source_storage !! path with
     | None =>
         streams (snd (get_local_hash path source_storage size w)) = streams w
     | Some _ =>
         exists s,
           streams (snd (get_local_hash path source_storage size w))
           = (streams w ++ [s])%list
           /\ closed s = false
     end.
Proof.
  unfold get_local_hash, bind.
  destruct (files source_storage !! path) as [f|] eqn:Hf.
  - rewrite (storage_open_ok _ _ _ _ Hf).
    destruct (read_chunks _ _ _ _ _) as [r w2] eqn:Hrun.
    apply (read_chunks_streams _ _ _ _ _ _ _ _ (opened_lookup w path f) eq_refl)
      in Hrun.
    destruct Hrun as (s' & Hstreams & Hclosed & Hstorage).
    assert (Hw2 : streams w2 = (streams w ++ [s'])%list).
    { rewrite Hstreams. unfold opened. cbn [streams].
      rewrite insert_app_r_alt by lia. rewrite Nat.sub_diag. reflexivity. }
    destruct r as [m|e]; unfold ret; cbn [snd]; (split; [exact Hstorage|]);
      exists s'; auto.
  - rewrite (storage_open_missing _ _ _ Hf). cbn [snd]. auto.
Qed.

End Properties.

(** ** The theorems at work on the sample collaborators *)

Ltac evaluate := vm_compute; reflexivity.

(** C8 at the failing input: the flag is on, the storage does not preload,
    and the command is fresh from Django's constructor. *)
Lemma init_raises_before_forcing_witness :
  __init__ fast_settings django_init django_verbosity (world_of lazy_storage)
  = (Raise (AttributeError "verbosity"), world_of lazy_storage)
  /\ preload_metadata
       (storage (snd (__init__ fast_settings django_init django_verbosity
                        (world_of lazy_storage))))
     = Some false.
Proof.
  assert (Hflag : AWS_FAST_COLLECTSTATIC fast_settings = true)
    by (vm_compute; reflexivity).
  destruct (init_raises_before_forcing fast_settings django_init
              django_verbosity (world_of lazy_storage) (world_of lazy_storage)
              eq_refl eq_refl)
    as [Hon _].
  rewrite (Hon Hflag eq_refl). split; reflexivity.
Defined.

(** C10 at work: a storage without the attribute is left alone. *)
Lemma init_without_attribute_witness :
  __init__ fast_settings django_init django_verbosity
    (world_of (plain_storage None ∅))
  = (Ok tt, world_of (plain_storage None ∅)).
Proof.
  apply (init_without_attribute fast_settings django_init django_verbosity
           (world_of (plain_storage None ∅))); reflexivity.
Defined.

(** C7, as stated, fails on a backend without a [location]. *)
Lemma get_entry_path_guess_fails :
  _normalize_name (plain_storage None ∅) = None
  /\ _clean_name (plain_storage None ∅) = None
  /\ get_entry_path "css/site.css" (plain_storage None ∅)
       (world_of (plain_storage None ∅))
     = (Raise (AttributeError "location"),
        record (world_of (plain_storage None ∅))
          (EvLog "Unknown storage, guessing entry path for css/site.css")).
Proof. repeat split. Qed.

(** C7 at work on a backend with a [location]. *)
Lemma get_entry_path_guess_witness :
  get_entry_path "css/site.css" (plain_storage None ∅)
    (world_of (plain_storage (Some "media") ∅))
  = (Ok "media/css/site.css",
     record (world_of (plain_storage (Some "media") ∅))
       (EvLog "Unknown storage, guessing entry path for css/site.css")).
Proof.
  apply (get_entry_path_guess "css/site.css" "media" (plain_storage None ∅)
           (world_of (plain_storage (Some "media") ∅)));
    reflexivity.
Defined.

(** C4 at work: without the setting the answer is Django's, here "unmodified"
    for a file whose digest differs from the etag. *)
Lemma delete_file_flag_off_witness :
  delete_file default_settings django_unmodified "css/empty.css"
    "css/empty.css" local_files
    (bucket "css/empty.css" (quoted md5_hello_world))
  = django_unmodified "css/empty.css" "css/empty.css" local_files
      (bucket "css/empty.css" (quoted md5_hello_world)).
Proof.
  apply (delete_file_flag_off default_settings django_unmodified).
  reflexivity.
Defined.

(** C3 at work: nothing in the bucket. *)
Lemma delete_file_absent_witness :
  delete_file fast_settings django_unmodified "js/hello.js" "js/hello.js"
    local_files (world_of (boto_storage ∅))
  = (Ok true, record (world_of (boto_storage ∅)) (EvExists "js/hello.js")).
Proof.
  apply (delete_file_absent fast_settings django_unmodified "js/hello.js"
           "js/hello.js" local_files (world_of (boto_storage ∅))).
  - evaluate.
  - evaluate.
Defined.

(** C2 at work: the empty file against the etag of another content. *)
Lemma delete_file_compares_witness :
  fst (delete_file fast_settings django_unmodified "css/empty.css"
         "css/empty.css" local_files
         (bucket "css/empty.css" (quoted md5_hello_world)))
  = Ok true.
Proof.
  pose (w := bucket "css/empty.css" (quoted md5_hello_world)).
  pose (w1 := snd (storage_exists "css/empty.css" w)).
  pose (w2 := snd (get_remote_hash "css/empty.css" w1)).
  pose (w3 := snd (get_local_hash "css/empty.css" local_files
                     default_block_size w2)).
  assert (Hflag : AWS_FAST_COLLECTSTATIC fast_settings = true) by evaluate.
  assert (Hexists : storage_exists "css/empty.css" w = (Ok true, w1))
    by evaluate.
  assert (Hremote : get_remote_hash "css/empty.css" w1
                    = (Ok md5_hello_world, w2)) by evaluate.
  assert (Hlocal : get_local_hash "css/empty.css" local_files
                     default_block_size w2 = (Ok md5_empty, w3)) by evaluate.
  destruct (delete_file_compares fast_settings django_unmodified
              "css/empty.css" "css/empty.css" local_files w w1 w2 w3
              md5_hello_world md5_empty Hflag Hexists Hremote Hlocal)
    as (_ & Hdiffer & _).
  fold w. rewrite Hdiffer; [reflexivity | discriminate].
Defined.

(** C1, as stated, fails: the local file cannot be read to its end, Django
    finds the target unmodified, and the answer is [False]. *)
Lemma delete_file_error_path_skips :
  let w := bucket "img/broken.png" (quoted md5_hello_world) in
  AWS_FAST_COLLECTSTATIC fast_settings = true
  /\ fst (storage_exists "img/broken.png" w) = Ok true
  /\ fst (get_hashes "img/broken.png" "img/broken.png" local_files
            (snd (storage_exists "img/broken.png" w)))
     = Raise (IOError "Input/output error")
  /\ fst (delete_file fast_settings django_unmodified "img/broken.png"
            "img/broken.png" local_files w)
     = Ok false.
Proof. repeat split; evaluate. Qed.

(** C1 at work on the same file: from the failed read on, the command does
    what Django does. *)
Lemma delete_file_skip_cases_witness :
  let w := bucket "img/broken.png" (quoted md5_hello_world) in
  let w1 := snd (storage_exists "img/broken.png" w) in
  delete_file fast_settings django_modified "img/broken.png" "img/broken.png"
    local_files w
  = django_modified "img/broken.png" "img/broken.png" local_files
      (snd (get_hashes "img/broken.png" "img/broken.png" local_files w1)).
Proof.
  intros w w1.
  apply (proj2 (delete_file_skip_cases fast_settings django_modified
                  "img/broken.png" "img/broken.png" local_files w eq_refl)
           w1 (IOError "Input/output error")).
  - evaluate.
  - right. exists md5_hello_world, (snd (get_remote_hash "img/broken.png" w1)).
    split; evaluate.
Defined.

(** C6 at work: the empty file against its own digest in quotation marks. *)
Lemma delete_file_quoted_etag_witness :
  fst (delete_file fast_settings django_modified "css/empty.css"
         "css/empty.css" local_files
         (bucket "css/empty.css" (quoted md5_empty)))
  = Ok false.
Proof.
  pose (w := bucket "css/empty.css" (quoted md5_empty)).
  pose (w1 := snd (storage_exists "css/empty.css" w)).
  pose (w2 := snd (get_entry_path "css/empty.css" (storage w1) w1)).
  pose (w3 := snd (get_local_hash "css/empty.css" local_files
                     default_block_size
                     (record w2 (EvEntriesGet "static/css/empty.css")))).
  assert (Hflag : AWS_FAST_COLLECTSTATIC fast_settings = true) by evaluate.
  assert (Hexists : storage_exists "css/empty.css" w = (Ok true, w1))
    by evaluate.
  assert (Hpath : get_entry_path "css/empty.css" (storage w1) w1
                  = (Ok "static/css/empty.css", w2)) by evaluate.
  assert (Hlocal : get_local_hash "css/empty.css" local_files
                     default_block_size
                     (record w2 (EvEntriesGet "static/css/empty.css"))
                   = (Ok md5_empty, w3)) by evaluate.
  destruct (delete_file_quoted_etag fast_settings django_modified
              "css/empty.css" "css/empty.css" "static/css/empty.css"
              md5_empty local_files
              {[ "static/css/empty.css"
                 := {| etag := Some (quoted md5_empty) |} ]}
              w w1 w2 w3 Hflag Hexists Hpath eq_refl eq_refl Hlocal)
    as (_ & _ & Hskip).
  fold w. rewrite Hskip. reflexivity.
Defined.

(** C5 at work: three bytes at a time against the default chunk size. *)
Lemma get_local_hash_chunk_independent_witness :
  fst (get_local_hash "js/hello.js" local_files 3 (world_of lazy_storage))
  = fst (get_local_hash "js/hello.js" local_files default_block_size
           (world_of lazy_storage)).
Proof.
  assert (H1 : 1 <= 3) by lia.
  assert (H2 : 1 <= default_block_size) by (vm_compute; discriminate).
  exact (proj1 (get_local_hash_chunk_independent "js/hello.js" local_files 3
                  default_block_size (world_of lazy_storage)
                  (world_of lazy_storage) H1 H2)).
Defined.

(** C9, as stated, fails: after a complete read and after a failed one the
    stream is still open. *)
Lemma get_local_hash_stream_not_closed :
  fst (get_local_hash "js/hello.js" local_files default_block_size
         (world_of lazy_storage))
  = Ok md5_hello_world
  /\ map closed
       (streams (snd (get_local_hash "js/hello.js" local_files
                        default_block_size (world_of lazy_storage))))
     = [false]
  /\ fst (get_local_hash "img/broken.png" local_files default_block_size
            (world_of lazy_storage))
     = Raise (IOError "Input/output error")
  /\ map closed
       (streams (snd (get_local_hash "img/broken.png" local_files
                        default_block_size (world_of lazy_storage))))
     = [false].
Proof. repeat split; evaluate. Qed.

(** ** Further properties of the command *)

Lemma get_remote_hash_inv (prefixed_path h : string) (w w' : World) :
  get_remote_hash prefixed_path w = (Ok h, w') ->
  exists entry_path w1 index entry tag,
    get_entry_path prefixed_path (storage w) w = (Ok entry_path, w1)
    /\ entries (storage w) = Ok index
    /\ index !! entry_path = Some entry
    /\ etag entry = Some tag
    /\ h = str_remove dquote tag
    /\ w' = record w1 (EvEntriesGet entry_path).
Proof.
  unfold get_remote_hash, bind, get_storage, lift, emit, getattr, ret, raise.
  destruct (get_entry_path_trace prefixed_path (storage w) w)
    as (e & _ & Hs & _).
  destruct (get_entry_path prefixed_path (storage w) w) as [[ep|x] w1];
    cbn [snd] in Hs; [|discriminate].
  rewrite Hs.
  destruct (entries (storage w)) as [index|x]; [|discriminate].
  destruct (index !! ep) as [entry|] eqn:Hi; [|discriminate].
  destruct (etag entry) as [tag|] eqn:Ht; [|discriminate].
  intros H. injection H as <- <-.
  exists ep, w1, index, entry, tag. auto 6.
Qed.

Lemma get_remote_hash_missing (prefixed_path entry_path : string)
    (index : gmap string Entry) (w w1 : World) :
  get_entry_path prefixed_path (storage w) w = (Ok entry_path, w1) ->
  entries (storage w) = Ok index ->
  index !! entry_path = None ->
  get_remote_hash prefixed_path w
  = (Raise (AttributeError "etag"), record w1 (EvEntriesGet entry_path)).
Proof.
  intros Hep Hidx Hnone.
  destruct (get_entry_path_trace prefixed_path (storage w) w)
    as (e & _ & Hs & _).
  rewrite Hep in Hs. cbn [snd] in Hs.
  unfold get_remote_hash, bind, get_storage, lift, emit, getattr, ret, raise.
  rewrite Hep, Hs, Hidx, Hnone. reflexivity.
Qed.

Lemma str_remove_absent (c : ascii) (s : string) :
  ~ In c (list_ascii_of_string (str_remove c s)).
Proof.
  induction s as [|a s IH]; simpl; [tauto|].
  destruct (Ascii.eqb a c) eqn:E; [exact IH|].
  simpl. intros [H|H]; [|exact (IH H)].
  subst a. rewrite Ascii.eqb_refl in E. discriminate.
Qed.

Lemma get_remote_hash_keeps (prefixed_path : string) (w : World) :
  storage (snd (get_remote_hash prefixed_path w)) = storage w
  /\ streams (snd (get_remote_hash prefixed_path w)) = streams w.
Proof.
  unfold get_remote_hash, bind, get_storage, lift, emit, getattr, ret, raise.
  destruct (get_entry_path_trace prefixed_path (storage w) w)
    as (e & _ & Hs & Hst).
  destruct (get_entry_path prefixed_path (storage w) w) as [[ep|x] w1];
    cbn [snd] in *; [|auto].
  destruct (entries (storage w1)) as [index|x]; cbn [snd]; [|auto].
  destruct (index !! ep) as [entry|]; cbn [snd record storage streams];
    [|auto].
  destruct (etag entry); cbn [snd record storage streams]; auto.
Qed.



(** Chunks of any size that is read, but zero. *)

Lemma take_nil_nonzero (size : Z) (bs : list byte) :
  size <> 0 -> -1 <= size -> take size bs = [] -> bs = [].
Proof.
  intros H Hge. unfold take. destruct (Z.eqb_spec size (-1)); [auto|].
  destruct (Z.to_nat size) eqn:E; [lia|].
  destruct bs; [reflexivity|discriminate].
Qed.

Lemma read_chunks_result_nonzero (fd : nat) (size : Z) (n : nat) :
  size <> 0 ->
  -1 <= size ->
  forall (md5 : MD5.t) (w : World) (s : Stream),
    streams w !! fd = Some s ->
    closed s = false ->
    (length (unread s) < n)%nat ->
    fst (read_chunks n fd size md5 w)
    = if covers (budget s) (length (unread s))
      then Ok (MD5.update md5 (unread s))
      else Raise (IOError "Input/output error").
Proof.
  intros Hsize Hge.
  induction n as [|n IH]; intros md5 w s Hs Hc Hn; [lia|].
  simpl. unfold bind at 1.
  destruct (covers (budget s) (length (take size (unread s)))) eqn:Hb.
  - rewrite (stream_read_ok _ _ _ _ Hge Hs Hc Hb).
    destruct (take size (unread s)) as [|b chunk] eqn:Hchunk.
    + apply take_nil_nonzero in Hchunk; [|exact Hsize|exact Hge].
      rewrite Hchunk in *.
      rewrite Hb. reflexivity.
    + rewrite <- Hchunk in *.
      assert (Hlen : (1 <= length (take size (unread s)))%nat)
        by (rewrite Hchunk; simpl; lia).
      pose proof (take_length size (unread s)) as Hle.
      rewrite (IH _ _ (advance s (length (take size (unread s))))).
      * simpl. rewrite length_skipn, covers_spend by assumption.
        rewrite update_app, take_skipn. reflexivity.
      * simpl. apply list_lookup_insert_eq. eapply lookup_lt_Some. exact Hs.
      * reflexivity.
      * simpl. rewrite length_skipn. lia.
  - rewrite (stream_read_fault _ _ _ _ Hge Hs Hc Hb). simpl.
    rewrite (covers_less _ _ _ Hb (take_length _ _)). reflexivity.
Qed.

Lemma get_local_hash_result_nonzero (path : string)
    (source_storage : SourceStorage) (size : Z) (w : World) :
  size <> 0 ->
  -1 <= size ->
  fst (get_local_hash path source_storage size w)
  = match files source_storage !! path with
    | None => Raise (IOError "No such file or directory")
    | Some f =>
        if covers (fault f) (length (data f))
        then Ok (MD5.hexdigest (MD5.update MD5.new (data f)))
        else Raise (IOError "Input/output error")
    end.
Proof.
  intros Hsize Hge. unfold get_local_hash, bind.
  destruct (files source_storage !! path) as [f|] eqn:Hf.
  - rewrite (storage_open_ok _ _ _ _ Hf).
    pose proof (opened_lookup w path f) as Hl.
    pose proof (read_chunks_result_nonzero (length (streams w)) size
                  (S (unread_bytes (length (streams w)) (opened w path f)))
                  Hsize Hge MD5.new _ _ Hl eq_refl) as Hr.
    unfold unread_bytes in Hr at 1. rewrite Hl in Hr.
    specialize (Hr (Nat.lt_succ_diag_r _)). cbn [unread budget] in Hr.
    destruct (read_chunks _ _ _ _ _) as [[m'|e] w2]; cbn [fst] in *;
      destruct (covers (fault f) (length (data f)));
      unfold ret; cbn [fst]; congruence.
  - rewrite (storage_open_missing _ _ _ Hf). reflexivity.
Qed.

Lemma get_local_hash_refused (path : string)
    (source_storage : SourceStorage) (size : Z) (w : World) :
  size < -1 ->
  fst (get_local_hash path source_storage size w)
  = match files source_storage !! path with
    | None => Raise (IOError "No such file or directory")
    | Some _ => Raise (ValueError "read length must be non-negative or -1")
    end.
Proof.
  intros Hsize. unfold get_local_hash, bind.
  destruct (files source_storage !! path) as [f|] eqn:Hf.
  - rewrite (storage_open_ok _ _ _ _ Hf). cbn [read_chunks]. unfold bind.
    rewrite (stream_read_refused _ _ _ _ Hsize (opened_lookup w path f)
               eq_refl).
    reflexivity.
  - rewrite (storage_open_missing _ _ _ Hf). reflexivity.
Qed.

(** The shape of a digest. *)

Lemma hex_of_bytes_length (bs : list byte) :
  String.length (MD5.hex_of_bytes bs) = (2 * length bs)%nat.
Proof.
  induction bs as [|b bs IH]; [reflexivity|].
  cbn [MD5.hex_of_bytes String.length length]. rewrite IH. lia.
Qed.

Lemma le_bytes_length (n : nat) (z : Z) : length (MD5.le_bytes n z) = n.
Proof. unfold MD5.le_bytes. now rewrite length_map, length_seq. Qed.

Lemma hexdigest_length (m : MD5.t) :
  String.length (MD5.hexdigest m) = 32%nat.
Proof.
  unfold MD5.hexdigest, MD5.digest. rewrite hex_of_bytes_length.
  rewrite !length_app, !le_bytes_length. reflexivity.
Qed.

Lemma hex_digits_of_byte_lower (b : byte) :
  is_hex_digit (MD5.hex_digit (MD5.byte_to_Z b / 16)) = true
  /\ is_hex_digit (MD5.hex_digit (MD5.byte_to_Z b mod 16)) = true.
Proof. destruct b; split; vm_compute; reflexivity. Qed.

Lemma hex_of_bytes_lower (bs : list byte) :
  forallb is_hex_digit (list_ascii_of_string (MD5.hex_of_bytes bs)) = true.
Proof.
  induction bs as [|b bs IH]; [reflexivity|].
  destruct (hex_digits_of_byte_lower b) as [H1 H2].
  cbn [MD5.hex_of_bytes list_ascii_of_string forallb].
  rewrite H1, H2, IH. reflexivity.
Qed.

(** Counting the reads. *)

Lemma reads_needed_step (len size : nat) :
  (1 <= size)%nat -> (1 <= len)%nat ->
  reads_needed len size = S (reads_needed (len - Nat.min size len) size).
Proof.
  intros Hs Hl. unfold reads_needed. f_equal.
  destruct (Nat.le_gt_cases size len) as [Hge|Hlt].
  - rewrite Nat.min_l by exact Hge.
    replace (len + size - 1)%nat with ((len - size + size - 1) + 1 * size)%nat
      by lia.
    rewrite Nat.div_add by lia. lia.
  - rewrite Nat.min_r by lia. rewrite Nat.sub_diag.
    replace (len + size - 1)%nat with ((len - 1) + 1 * size)%nat by lia.
    rewrite Nat.div_add by lia.
    rewrite (Nat.div_small (len - 1)) by lia.
    rewrite (Nat.div_small (0 + size - 1)) by lia. reflexivity.
Qed.

Lemma covers_mono (b : option nat) (c u : nat) :
  covers b u = true -> (c <= u)%nat -> covers b c = true.
Proof.
  destruct b as [k|]; simpl; [|reflexivity].
  intros Hu Hc. apply Nat.leb_le in Hu. apply Nat.leb_le. lia.
Qed.

Lemma read_chunks_reads (fd : nat) (size : Z) (n : nat) :
  1 <= size ->
  forall (md5 : MD5.t) (w : World) (s : Stream),
    streams w !! fd = Some s ->
    closed s = false ->
    (length (unread s) < n)%nat ->
    covers (budget s) (length (unread s)) = true ->
    trace (snd (read_chunks n fd size md5 w))
    = (trace w ++ repeat (EvRead fd size)
                    (reads_needed (length (unread s)) (Z.to_nat size)))%list.
Proof.
  intros Hsize. induction n as [|n IH]; intros md5 w s Hs Hc Hn Hcov; [lia|].
  cbn [read_chunks]. unfold bind at 1.
  pose proof (take_length size (unread s)) as Hle.
  pose proof (covers_mono _ _ _ Hcov Hle) as Hb.
  assert (Hge : -1 <= size) by lia.
  rewrite (stream_read_ok _ _ _ _ Hge Hs Hc Hb).
  destruct (take size (unread s)) as [|b chunk] eqn:Hchunk.
  - apply take_nil in Hchunk; [|exact Hsize]. rewrite Hchunk.
    unfold ret, reads_needed. cbn [snd trace length].
    rewrite Nat.div_small by lia. reflexivity.
  - rewrite <- Hchunk in *.
    assert (Hlen : (1 <= length (take size (unread s)))%nat)
      by (rewrite Hchunk; simpl; lia).
    rewrite (reads_needed_step (length (unread s)) (Z.to_nat size)) by lia.
    replace (Nat.min (Z.to_nat size) (length (unread s)))
      with (length (take size (unread s)))
      by (rewrite take_positive by exact Hsize; apply length_firstn).
    rewrite (IH _ _ (advance s (length (take size (unread s))))).
    + cbn [trace advance unread repeat]. rewrite length_skipn.
      rewrite <- app_assoc. reflexivity.
    + cbn [streams]. apply list_lookup_insert_eq. eapply lookup_lt_Some.
      exact Hs.
    + reflexivity.
    + cbn [advance unread]. rewrite length_skipn. lia.
    + cbn [advance unread budget]. rewrite length_skipn.
      rewrite covers_spend by assumption. exact Hcov.
Qed.

Section Further.

Variable settings : gmap string bool.
Variable base_init : M unit.
Variable base_verbosity : option Z.
Variable base_delete_file : string -> string -> SourceStorage -> M bool.

Abbreviation flag' := (AWS_FAST_COLLECTSTATIC settings).
Abbreviation init' := (__init__ settings base_init base_verbosity).
Abbreviation delete' := (delete_file settings base_delete_file).

(** X1. With the flag on, an error of [storage.exists] is not caught: it
    comes out of [delete_file] as it is, after the existence check alone. *)
Theorem delete_file_exists_error (path prefixed_path : string)
    (source_storage : SourceStorage) (w : World) (e : exn) :
  flag' = true ->
  exists_ (storage w) prefixed_path = Raise e ->
  delete' path prefixed_path source_storage w
  = (Raise e, record w (EvExists prefixed_path)).
Proof.
  intros Hflag Hex. unfold delete_file, storage_exists. rewrite Hflag. run.
  rewrite Hex. reflexivity.
Qed.

(** X3. With the flag on and the base constructor through, a constructor
    that returns leaves a storage that preloads its metadata (the attribute is
    true or absent); and whether the constructor returns or raises, nothing
    but that attribute differs from what the base constructor left. *)
Theorem init_postcondition (w w1 : World) :
  flag' = true ->
  base_init w = (Ok tt, w1) ->
  (fst (init' w) = Ok tt ->
   default true (preload_metadata (storage (snd (init' w)))) = true)
  /\ streams (snd (init' w)) = streams w1
  /\ _normalize_name (storage (snd (init' w))) = _normalize_name (storage w1)
  /\ _clean_name (storage (snd (init' w))) = _clean_name (storage w1)
  /\ location (storage (snd (init' w))) = location (storage w1)
  /\ entries (storage (snd (init' w))) = entries (storage w1)
  /\ exists_ (storage (snd (init' w))) = exists_ (storage w1).
Proof.
  intros Hflag Hbase. unfold __init__, log_with. run. rewrite Hbase, Hflag.
  destruct (preload_metadata (storage w1)) as [[|]|] eqn:Hp; simpl;
    [| destruct base_verbosity; simpl |];
    (split; [try discriminate; intros _; rewrite ?Hp; reflexivity|]);
    auto 10.
Qed.

(** X4. When the setting is not there at all, the command is Django's: the
    constructor is the base constructor and [delete_file] the base
    [delete_file]. *)
Theorem unset_flag_is_django :
  settings !! "AWS_FAST_COLLECTSTATIC" = None ->
  (forall w, __init__ settings base_init base_verbosity w = base_init w)
  /\ (forall path prefixed_path source_storage w,
        delete_file settings base_delete_file path prefixed_path
          source_storage w
        = base_delete_file path prefixed_path source_storage w).
Proof.
  intros Hnone.
  assert (Hflag : flag' = false).
  { unfold AWS_FAST_COLLECTSTATIC. rewrite Hnone. reflexivity. }
  split.
  - intros w. unfold __init__. run. rewrite Hflag.
    destruct (base_init w) as [[[]|e] w1]; reflexivity.
  - intros path prefixed_path source_storage w.
    unfold delete_file. rewrite Hflag. reflexivity.
Qed.

(** X7. With the flag on, when [storage.exists] says yes but the index has no
    entry under the entry path, [delete_file] does what the base
    [delete_file] does; the local file is not opened. *)
Theorem delete_file_missing_entry (path prefixed_path entry_path : string)
    (source_storage : SourceStorage) (index : gmap string Entry)
    (w w1 w2 : World) :
  flag' = true ->
  storage_exists prefixed_path w = (Ok true, w1) ->
  get_entry_path prefixed_path (storage w1) w1 = (Ok entry_path, w2) ->
  entries (storage w1) = Ok index ->
  index !! entry_path = None ->
  delete' path prefixed_path source_storage w
  = base_delete_file path prefixed_path source_storage
      (record w2 (EvEntriesGet entry_path))
  /\ streams (record w2 (EvEntriesGet entry_path)) = streams w.
Proof.
  intros Hflag Hex Hep Hidx Hnone.
  pose proof (get_remote_hash_missing _ _ _ _ _ Hep Hidx Hnone) as Hr.
  split.
  - unfold delete_file. rewrite Hflag. simpl. unfold bind at 1. rewrite Hex.
    unfold try_except_else, get_hashes, bind. rewrite Hr. reflexivity.
  - destruct (get_entry_path_trace prefixed_path (storage w1) w1)
      as (e & _ & _ & Hst).
    rewrite Hep in Hst. cbn [snd] in Hst. cbn [record streams].
    rewrite Hst. revert Hex. unfold storage_exists. run.
    destruct (exists_ (storage w) prefixed_path); intros H;
      injection H as _ <-; reflexivity.
Qed.

End Further.

(** X2. With the flag on, when there is no remote object, or there is one and
    both fingerprints are obtained, the answer does not depend on the base
    [delete_file]: modification times play no part. *)
Theorem delete_file_ignores_base (settings : gmap string bool)
    (base1 base2 : string -> string -> SourceStorage -> M bool)
    (path prefixed_path : string) (source_storage : SourceStorage)
    (w : World) :
  AWS_FAST_COLLECTSTATIC settings = true ->
  (forall w1 e w2,
     storage_exists prefixed_path w = (Ok true, w1) ->
     get_hashes path prefixed_path source_storage w1 <> (Raise e, w2)) ->
  delete_file settings base1 path prefixed_path source_storage w
  = delete_file settings base2 path prefixed_path source_storage w.
Proof.
  intros Hflag Hok. unfold delete_file. rewrite Hflag. simpl.
  unfold bind at 1 3.
  destruct (storage_exists prefixed_path w) as [[[|]|x] w1] eqn:Hex;
    try reflexivity.
  unfold try_except_else.
  destruct (get_hashes path prefixed_path source_storage w1)
    as [[hs|e] w2] eqn:Hh; [reflexivity|].
  exfalso. exact (Hok w1 e w2 eq_refl Hh).
Qed.

(** X5. A remote hash that [get_remote_hash] returns holds no quotation
    mark, wherever the etag had them. *)
Theorem get_remote_hash_unquoted (prefixed_path h : string) (w w' : World) :
  get_remote_hash prefixed_path w = (Ok h, w') ->
  ~ In dquote (list_ascii_of_string h).
Proof.
  intros H. apply get_remote_hash_inv in H.
  destruct H as (ep & w1 & index & entry & tag & _ & _ & _ & _ & -> & _).
  apply str_remove_absent.
Qed.

(** X6. [get_remote_hash] only looks: whether it returns or raises, the
    storage and the streams are as they were; and when it raises, the body of
    the [try] ends there, before the local file is opened. *)
Theorem get_remote_hash_frame (prefixed_path : string) (w : World) :
  storage (snd (get_remote_hash prefixed_path w)) = storage w
  /\ streams (snd (get_remote_hash prefixed_path w)) = streams w
  /\ (forall path source_storage e w2,
        get_remote_hash prefixed_path w = (Raise e, w2) ->
        get_hashes path prefixed_path source_storage w = (Raise e, w2)).
Proof.
  destruct (get_remote_hash_keeps prefixed_path w) as [H1 H2].
  split; [exact H1|]. split; [exact H2|].
  intros path source_storage e w2 Hr. apply get_hashes_raise. left. exact Hr.
Qed.

(** X8. With a chunk size of zero the first read returns nothing and the loop
    ends at once: whatever the file holds, the digest is that of no bytes. *)
Theorem get_local_hash_zero_block (path : string)
    (source_storage : SourceStorage) (f : File) (w : World) :
  files source_storage !! path = Some f ->
  fst (get_local_hash path source_storage 0 w)
  = Ok "d41d8cd98f00b204e9800998ecf8427e".
Proof.
  intros Hf. unfold get_local_hash, bind.
  rewrite (storage_open_ok _ _ _ _ Hf). cbn [read_chunks]. unfold bind.
  assert (Hge : -1 <= 0) by lia.
  rewrite (stream_read_ok _ _ _ _ Hge (opened_lookup w path f) eq_refl).
  - change (take 0 (unread {| unread := data f; budget := fault f;
                              closed := false |})) with (@nil byte).
    unfold ret. cbn [fst]. rewrite md5_of_nothing. reflexivity.
  - destruct (fault f); reflexivity.
Qed.

(** X9. A chunk size of -1 reads the file in one piece, and the outcome is
    that of any chunk size of at least one byte. *)
Theorem get_local_hash_negative_block (path : string)
    (source_storage : SourceStorage) (size' : Z) (w w' : World) :
  1 <= size' ->
  fst (get_local_hash path source_storage (-1) w)
  = fst (get_local_hash path source_storage size' w').
Proof.
  intros Hpos.
  assert (Hnz : -1 <> 0) by lia. assert (Hge : -1 <= -1) by lia.
  rewrite (get_local_hash_result_nonzero path source_storage (-1) w Hnz Hge).
  rewrite get_local_hash_result by exact Hpos. reflexivity.
Qed.

(** X10. For a chunk size other than zero, a digest that [get_local_hash]
    returns is the digest of all the bytes of the file: when the device fails
    before the end of the file no digest of what was read so far comes out. *)
Theorem get_local_hash_whole_file (path : string)
    (source_storage : SourceStorage) (size : Z) (w w' : World) (h : string) :
  size <> 0 ->
  get_local_hash path source_storage size w = (Ok h, w') ->
  exists f,
    files source_storage !! path = Some f
    /\ covers (fault f) (length (data f)) = true
    /\ h = MD5.hexdigest (MD5.update MD5.new (data f)).
Proof.
  intros Hsize Hrun.
  destruct (Z.lt_ge_cases size (-1)) as [Hlow|Hge].
  { pose proof (get_local_hash_refused path source_storage size w Hlow)
      as Hres.
    rewrite Hrun in Hres. cbn [fst] in Hres.
    destruct (files source_storage !! path); discriminate. }
  pose proof (get_local_hash_result_nonzero path source_storage size w Hsize
                Hge)
    as Hres.
  rewrite Hrun in Hres. cbn [fst] in Hres.
  destruct (files source_storage !! path) as [f|]; [|discriminate].
  destruct (covers (fault f) (length (data f))) eqn:Hcov; [|discriminate].
  injection Hres as ->. exists f. auto.
Qed.

(** X11. On a file that can be read to its end, [get_local_hash] opens the
    file once and then reads one chunk of the given size after the other:
    as many reads as the file has chunks, full or not, and one more that finds
    the end. *)
Theorem get_local_hash_reads (path : string)
    (source_storage : SourceStorage) (f : File) (size : Z) (w : World) :
  1 <= size ->
  files source_storage !! path = Some f ->
  covers (fault f) (length (data f)) = true ->
  trace (snd (get_local_hash path source_storage size w))
  = (trace w ++ EvOpen path
       :: repeat (EvRead (length (streams w)) size)
            (reads_needed (length (data f)) (Z.to_nat size)))%list.
Proof.
  intros Hsize Hf Hcov. unfold get_local_hash, bind.
  rewrite (storage_open_ok _ _ _ _ Hf).
  pose proof (opened_lookup w path f) as Hl.
  pose proof (read_chunks_reads (length (streams w)) size
                (S (unread_bytes (length (streams w)) (opened w path f)))
                Hsize MD5.new _ _ Hl eq_refl) as Hr.
  unfold unread_bytes in Hr at 1. rewrite Hl in Hr.
  specialize (Hr (Nat.lt_succ_diag_r _) Hcov). cbn [unread] in Hr.
  destruct (read_chunks _ _ _ _ _) as [[m|e] w2]; unfold ret;
    cbn [snd] in *; rewrite Hr; unfold opened; cbn [trace];
    rewrite <- app_assoc; reflexivity.
Qed.

(** X12. A digest that [get_local_hash] returns is 32 characters long, each
    of them one of 0-9 and a-f. *)
Theorem get_local_hash_format (path : string) (source_storage : SourceStorage)
    (size : Z) (w w' : World) (h : string) :
  get_local_hash path source_storage size w = (Ok h, w') ->
  String.length h = 32%nat
  /\ forallb is_hex_digit (list_ascii_of_string h) = true.
Proof.
  intros Hrun. destruct (get_local_hash_hex _ _ _ _ _ _ Hrun) as [m ->].
  split; [apply hexdigest_length|apply hex_of_bytes_lower].
Qed.

(** X13. With the flag on, a remote hash that is not 32 characters of 0-9 and
    a-f (the etag of a multipart upload, an etag in capitals) equals no local
    digest: when both fingerprints are obtained the answer is [True]. *)
Theorem delete_file_foreign_etag (settings : gmap string bool)
    (base_delete_file : string -> string -> SourceStorage -> M bool)
    (path prefixed_path : string) (source_storage : SourceStorage)
    (w w1 w2 w3 : World) (remote_hash local_hash : string) :
  AWS_FAST_COLLECTSTATIC settings = true ->
  storage_exists prefixed_path w = (Ok true, w1) ->
  get_remote_hash prefixed_path w1 = (Ok remote_hash, w2) ->
  get_local_hash path source_storage default_block_size w2
  = (Ok local_hash, w3) ->
  String.length remote_hash <> 32%nat
  \/ forallb is_hex_digit (list_ascii_of_string remote_hash) = false ->
  delete_file settings base_delete_file path prefixed_path source_storage w
  = (Ok true, w3).
Proof.
  intros Hflag Hex Hr Hl Hforeign.
  assert (Hne : remote_hash <> local_hash).
  { intros ->. destruct (get_local_hash_hex _ _ _ _ _ _ Hl) as [m ->].
    destruct Hforeign as [H|H].
    - apply H. apply hexdigest_length.
    - unfold MD5.hexdigest in H. rewrite hex_of_bytes_lower in H.
      discriminate. }
  unfold delete_file. rewrite Hflag. simpl. unfold bind at 1. rewrite Hex.
  unfold try_except_else.
  rewrite (proj2 (get_hashes_ok path prefixed_path source_storage w1 w3
                    remote_hash local_hash)) by (exists w2; auto).
  apply String.eqb_neq in Hne. rewrite Hne. reflexivity.
Qed.

(** X14. For a backend with neither [_normalize_name] nor [_clean_name], the
    guessed entry path is the prefixed path itself when the location is the
    empty string or the prefixed path starts with a slash. *)
Theorem get_entry_path_guess_plain (prefixed_path loc : string) (s : Storage)
    (w : World) :
  _normalize_name s = None ->
  _clean_name s = None ->
  location (storage w) = Some loc ->
  loc = "" \/ String.prefix "/" prefixed_path = true ->
  fst (get_entry_path prefixed_path s w) = Ok prefixed_path.
Proof.
  intros Hn Hc Hl Hcase. unfold get_entry_path. rewrite Hn, Hc. run.
  rewrite Hl. simpl. unfold os_path_join.
  destruct (String.prefix "/" prefixed_path) eqn:Hp; [reflexivity|].
  destruct Hcase as [->|H]; [reflexivity|discriminate].
Qed.


(** ** The further properties at work on the sample collaborators *)

(** X1 at work: the bucket cannot be reached. *)
Lemma delete_file_exists_error_witness :
  delete_file fast_settings django_unmodified "js/hello.js" "js/hello.js"
    local_files (world_of offline_storage)
  = (Raise (Exception "S3ResponseError"),
     record (world_of offline_storage) (EvExists "js/hello.js")).
Proof.
  apply (delete_file_exists_error fast_settings django_unmodified).
  - evaluate.
  - reflexivity.
Defined.

(** X2 at work: the digests differ, and what Django thinks does not count. *)
Lemma delete_file_ignores_base_witness :
  delete_file fast_settings django_unmodified "css/empty.css" "css/empty.css"
    local_files (bucket "css/empty.css" (quoted md5_hello_world))
  = delete_file fast_settings django_modified "css/empty.css" "css/empty.css"
      local_files (bucket "css/empty.css" (quoted md5_hello_world)).
Proof.
  apply (delete_file_ignores_base fast_settings django_unmodified
           django_modified).
  - evaluate.
  - intros w1 e w2 Hex Hraise.
    assert (Hw1 : w1 = snd (storage_exists "css/empty.css"
                              (bucket "css/empty.css"
                                 (quoted md5_hello_world)))).
    { rewrite Hex. reflexivity. }
    subst w1. apply (f_equal fst) in Hraise. vm_compute in Hraise.
    discriminate.
Defined.

(** X3 at work: a storage that preloads, on a command fresh from Django's
    constructor. *)
Lemma init_postcondition_witness :
  default true
    (preload_metadata
       (storage (snd (__init__ fast_settings django_init django_verbosity
                        (world_of (boto_storage ∅))))))
  = true.
Proof.
  assert (Hflag : AWS_FAST_COLLECTSTATIC fast_settings = true) by evaluate.
  destruct (init_postcondition fast_settings django_init django_verbosity
              (world_of (boto_storage ∅)) (world_of (boto_storage ∅))
              Hflag eq_refl)
    as (Hpreload & _).
  apply Hpreload. reflexivity.
Defined.

(** X4 at work: no settings at all. *)
Lemma unset_flag_is_django_witness :
  __init__ default_settings django_init django_verbosity
    (world_of lazy_storage)
  = django_init (world_of lazy_storage).
Proof.
  assert (Hnone : default_settings !! "AWS_FAST_COLLECTSTATIC" = None)
    by evaluate.
  exact (proj1 (unset_flag_is_django default_settings django_init
                  django_verbosity django_unmodified Hnone)
           (world_of lazy_storage)).
Defined.

(** X5 at work: the etag of the empty file, in quotation marks. *)
Lemma get_remote_hash_unquoted_witness :
  ~ In dquote (list_ascii_of_string md5_empty).
Proof.
  apply (get_remote_hash_unquoted "css/empty.css" md5_empty
           (bucket "css/empty.css" (quoted md5_empty))
           (snd (get_remote_hash "css/empty.css"
                   (bucket "css/empty.css" (quoted md5_empty))))).
  evaluate.
Defined.

(** X7 at work: a backend that says yes to everything and has an empty
    index. *)
Lemma delete_file_missing_entry_witness :
  fst (delete_file fast_settings django_unmodified "css/site.css"
         "css/site.css" local_files
         (world_of (plain_storage (Some "media") ∅)))
  = Ok false.
Proof.
  pose (w := world_of (plain_storage (Some "media") ∅)).
  pose (w1 := snd (storage_exists "css/site.css" w)).
  pose (w2 := snd (get_entry_path "css/site.css" (storage w1) w1)).
  assert (Hflag : AWS_FAST_COLLECTSTATIC fast_settings = true) by evaluate.
  assert (Hexists : storage_exists "css/site.css" w = (Ok true, w1))
    by evaluate.
  assert (Hpath : get_entry_path "css/site.css" (storage w1) w1
                  = (Ok "media/css/site.css", w2)) by evaluate.
  destruct (delete_file_missing_entry fast_settings django_unmodified
              "css/site.css" "css/site.css" "media/css/site.css" local_files
              ∅ w w1 w2 Hflag Hexists Hpath eq_refl eq_refl)
    as [Hbase _].
  fold w. rewrite Hbase. reflexivity.
Defined.

(** X8 at work: eleven bytes, hashed as none. *)
Lemma get_local_hash_zero_block_witness :
  fst (get_local_hash "js/hello.js" local_files 0 (world_of lazy_storage))
  = Ok "d41d8cd98f00b204e9800998ecf8427e".
Proof.
  apply (get_local_hash_zero_block "js/hello.js" local_files
           {| data := bytes_of_string "hello world"; fault := None |}).
  evaluate.
Defined.

(** X9 at work: all at once against three bytes at a time. *)
Lemma get_local_hash_negative_block_witness :
  fst (get_local_hash "js/hello.js" local_files (-1) (world_of lazy_storage))
  = fst (get_local_hash "js/hello.js" local_files 3 (world_of lazy_storage)).
Proof.
  assert (H : 1 <= 3) by lia.
  exact (get_local_hash_negative_block "js/hello.js" local_files 3
           (world_of lazy_storage) (world_of lazy_storage) H).
Defined.

(** X10 at work: the digest of [js/hello.js] is that of its eleven bytes. *)
Lemma get_local_hash_whole_file_witness :
  exists f,
    files local_files !! "js/hello.js" = Some f
    /\ covers (fault f) (length (data f)) = true
    /\ md5_hello_world = MD5.hexdigest (MD5.update MD5.new (data f)).
Proof.
  assert (Hsize : 3 <> 0) by lia.
  assert (Hrun : get_local_hash "js/hello.js" local_files 3
                   (world_of lazy_storage)
                 = (Ok md5_hello_world,
                    snd (get_local_hash "js/hello.js" local_files 3
                           (world_of lazy_storage)))) by evaluate.
  exact (get_local_hash_whole_file "js/hello.js" local_files 3
           (world_of lazy_storage) _ md5_hello_world Hsize Hrun).
Defined.

(** X11 at work: eleven bytes, three at a time, take five reads. *)
Lemma get_local_hash_reads_witness :
  trace (snd (get_local_hash "js/hello.js" local_files 3
                (world_of lazy_storage)))
  = EvOpen "js/hello.js" :: repeat (EvRead 0 3) 5.
Proof.
  assert (Hsize : 1 <= 3) by lia.
  assert (Hf : files local_files !! "js/hello.js"
               = Some {| data := bytes_of_string "hello world";
                         fault := None |}) by evaluate.
  rewrite (get_local_hash_reads "js/hello.js" local_files _ 3
             (world_of lazy_storage) Hsize Hf eq_refl).
  reflexivity.
Defined.

(** X12 at work on the digest of [js/hello.js]. *)
Lemma get_local_hash_format_witness :
  String.length md5_hello_world = 32%nat
  /\ forallb is_hex_digit (list_ascii_of_string md5_hello_world) = true.
Proof.
  apply (get_local_hash_format "js/hello.js" local_files 3
           (world_of lazy_storage)
           (snd (get_local_hash "js/hello.js" local_files 3
                   (world_of lazy_storage)))).
  evaluate.
Defined.

(** X13 at work: the empty file against the etag of a multipart upload of
    the same content. *)
Lemma delete_file_foreign_etag_witness :
  fst (delete_file fast_settings django_unmodified "css/empty.css"
         "css/empty.css" local_files
         (bucket "css/empty.css"
            (quoted "d41d8cd98f00b204e9800998ecf8427e-1")))
  = Ok true.
Proof.
  pose (w := bucket "css/empty.css"
               (quoted "d41d8cd98f00b204e9800998ecf8427e-1")).
  pose (w1 := snd (storage_exists "css/empty.css" w)).
  pose (w2 := snd (get_remote_hash "css/empty.css" w1)).
  pose (w3 := snd (get_local_hash "css/empty.css" local_files
                     default_block_size w2)).
  assert (Hflag : AWS_FAST_COLLECTSTATIC fast_settings = true) by evaluate.
  assert (Hexists : storage_exists "css/empty.css" w = (Ok true, w1))
    by evaluate.
  assert (Hremote : get_remote_hash "css/empty.css" w1
                    = (Ok "d41d8cd98f00b204e9800998ecf8427e-1", w2))
    by evaluate.
  assert (Hlocal : get_local_hash "css/empty.css" local_files
                     default_block_size w2 = (Ok md5_empty, w3)) by evaluate.
  assert (Hforeign :
            String.length "d41d8cd98f00b204e9800998ecf8427e-1" <> 32%nat
            \/ forallb is_hex_digit
                 (list_ascii_of_string "d41d8cd98f00b204e9800998ecf8427e-1")
               = false)
    by (right; evaluate).
  fold w.
  rewrite (delete_file_foreign_etag fast_settings django_unmodified
             "css/empty.css" "css/empty.css" local_files w w1 w2 w3 _ _
             Hflag Hexists Hremote Hlocal Hforeign).
  reflexivity.
Defined.

(** X14 at work: a backend with an empty location. *)
Lemma get_entry_path_guess_plain_witness :
  fst (get_entry_path "css/site.css" (plain_storage None ∅)
         (world_of (plain_storage (Some "") ∅)))
  = Ok "css/site.css".
Proof.
  apply (get_entry_path_guess_plain "css/site.css" "").
  - reflexivity.
  - reflexivity.
  - reflexivity.
  - left. reflexivity.
Defined.

